(** * loopholelabs/s3: the configuration package and the storage client

    A shallow embedding of the Go sources

      - [src/pkg/config/config.go]  (two revisions of package [config]:
        the one with a [Disabled] field, module [config], and the one
        with yaml tags and no [Disabled] field, module [config_yaml]);
      - [src/s3.go]                 (type [S3], module [s3]);
      - [src/unnamed/part_000]      (type [Client] bound to one bucket,
        module [s3_part_000]);
      - [src/unnamed/part_001]      (type [Client] bound to a bucket
        prefix, module [s3_part_001]).

    Go strings are byte sequences and are modelled by [string]; [int64]
    and [time.Duration] by [Z]; the [error] interface by [option err],
    [None] being [nil].  Pointers handed to the functions are taken to
    be non-nil.  The object store behind [minio-go] and the [zerolog]
    sink are external: every call made to them is recorded, in order, in
    a trace of events, and the answers of the store are given by a
    [Backend] that may depend on everything that happened before. *)

From Stdlib Require Import String Ascii List Bool ZArith.
Import ListNotations.
Open Scope string_scope.

Set Implicit Arguments.

(** ** Package [fmt], on string operands *)

Module fmt.

(** [%!(EXTRA string=a, string=b)]: operands left over at the end of
    the format. *)
Fixpoint extra_operands (a : list string) : string :=
  match a with
  | [] => ""
  | [x] => "string=" ++ x
  | x :: rest => "string=" ++ x ++ ", " ++ extra_operands rest
  end.

Definition extra (a : list string) : string :=
  match a with
  | [] => ""
  | _ => "%!(EXTRA " ++ extra_operands a ++ ")"
  end.

(** [fmt.Sprintf] for operands of type [string], on formats built from
    literal bytes, [%%], and the plain verbs [%s] and [%v] (which are
    all that the sources use on strings).  A directive outside of this
    fragment (flags, width, another verb) gives [None].  Operands are
    copied, never scanned for directives. *)
Fixpoint Sprintf (format : string) (a : list string) : option string :=
  match format with
  | EmptyString => Some (extra a)
  | String c EmptyString =>
      if Ascii.eqb c "%" then Some ("%!(NOVERB)" ++ extra a)
      else Some (String c (extra a))
  | String c (String v rest as tail) =>
      if Ascii.eqb c "%" then
        if Ascii.eqb v "%" then
          option_map (String "%") (Sprintf rest a)
        else if Ascii.eqb v "s" || Ascii.eqb v "v" then
          match a with
          | [] =>
              option_map
                (append ("%!" ++ String v "(MISSING)"))
                (Sprintf rest [])
          | x :: a' => option_map (append x) (Sprintf rest a')
          end
        else None
      else option_map (String c) (Sprintf tail a)
  end.

End fmt.

(** ** Errors

    One constructor per package-level sentinel created with
    [errors.New] (its identity is the variable, not the text), one for
    the values built by [fmt.Errorf] with [%w], and one for the errors
    that come out of the [minio-go] library. *)

Inductive err : Type :=
| ErrDisabled            (* s3:     errors.New("s3 is disabled") *)
| ErrEndpointRequired    (* config: errors.New("endpoint is required") *)
| ErrRegionRequired      (* config: errors.New("region is required") *)
| ErrBucketRequired      (* config: errors.New("bucket is required") *)
| ErrAccessKeyRequired   (* config: errors.New("access key is required") *)
| ErrSecretKeyRequired   (* config: errors.New("secret key is required") *)
| minioError (msg : string)
| wrapError (msg : string) (cause : err).

(** The [error] interface: [None] is [nil]. *)
Definition error : Type := option err.

Definition Error (e : err) : string :=
  match e with
  | ErrDisabled => "s3 is disabled"
  | ErrEndpointRequired => "endpoint is required"
  | ErrRegionRequired => "region is required"
  | ErrBucketRequired => "bucket is required"
  | ErrAccessKeyRequired => "access key is required"
  | ErrSecretKeyRequired => "secret key is required"
  | minioError msg => msg
  | wrapError msg _ => msg
  end.

Fixpoint err_eqb (a b : err) : bool :=
  match a, b with
  | ErrDisabled, ErrDisabled
  | ErrEndpointRequired, ErrEndpointRequired
  | ErrRegionRequired, ErrRegionRequired
  | ErrBucketRequired, ErrBucketRequired
  | ErrAccessKeyRequired, ErrAccessKeyRequired
  | ErrSecretKeyRequired, ErrSecretKeyRequired => true
  | minioError m, minioError m' => String.eqb m m'
  | wrapError m c, wrapError m' c' => String.eqb m m' && err_eqb c c'
  | _, _ => false
  end.

(** [errors.Is]: the target is looked for along the [Unwrap] chain.
    Go compares interface values; on the sentinels, which are the only
    targets used below, that is [err_eqb]. *)
Fixpoint errors_Is (e target : err) : bool :=
  err_eqb e target ||
  match e with
  | wrapError _ cause => errors_Is cause target
  | _ => false
  end.

(** [fmt.Errorf(format, err)] for a format whose only directive is a
    final [%w]: the text is rendered as with [%v] on [err.Error()] and
    the operand is kept as the cause. *)
Definition Errorf_w (prefix : string) (e : err) : err :=
  wrapError (prefix ++ Error e) e.

(** ** The collaborators: logger, context, wait group, object store *)

Module zerolog.

Inductive Level : Type := DebugLevel | WarnLevel.

(** A logger is known by the fields its context adds to every entry. *)
Record Logger : Type := { fields : list (string * string) }.

(** [logger.With().Str(key, val).Logger()] *)
Definition With_Str (key val : string) (l : Logger) : Logger :=
  {| fields := (fields l ++ [(key, val)])%list |}.

(** Operands of [Msgf]: strings and durations. *)
Inductive operand : Type :=
| str (s : string)
| dur (d : Z).

Inductive Message : Type :=
| Msg (msg : string)
| Msgf (format : string) (v : list operand).

End zerolog.

Module context.

(** The contexts of the sources: [context.Background()], the children
    made by [context.WithCancel], each with the state its [cancel]
    function sets, and whatever the caller brings, taken as opaque. *)
Inductive Context : Type :=
| Background
| cancelCtx (parent : Context) (done : bool)
| callerCtx (id : nat).

Definition WithCancel (parent : Context) : Context :=
  cancelCtx parent false.

(** The [CancelFunc] returned with a context, applied to it; calling it
    again changes nothing. *)
Definition cancel (c : Context) : Context :=
  match c with
  | cancelCtx parent _ => cancelCtx parent true
  | other => other
  end.

Definition cancelled (c : Context) : bool :=
  match c with
  | cancelCtx _ done => done
  | _ => false
  end.

End context.

Module sync.

(** [sync.WaitGroup]: the count of pending work; the zero value
    counts nothing. *)
Record WaitGroup : Type := { counter : nat }.

Definition zero : WaitGroup := {| counter := 0 |}.

(** [wg.Wait()] returns once the counter is zero.  These sources start
    no goroutine, so nobody else can bring a positive counter down:
    there [Wait] never returns, which is [None]. *)
Definition Wait (wg : WaitGroup) : option unit :=
  match counter wg with
  | O => Some tt
  | S _ => None
  end.

End sync.

Module minio.

(** [credentials.NewStaticV4(id, secret, token)] *)
Record Credentials : Type := {
  AccessKeyID : string;
  SecretAccessKey : string;
  SessionToken : string
}.

Definition NewStaticV4 (id secret token : string) : Credentials :=
  {| AccessKeyID := id; SecretAccessKey := secret; SessionToken := token |}.

Record Options : Type := {
  Creds : Credentials;
  Secure : bool;
  Region : string
}.

(** [*minio.Client], the session handle. *)
Record Client : Type := { session : nat }.

(** Option structs.  The sources only ever write the zero value of the
    first three, and set at most [ContentType], respectively [Prefix],
    in the last two. *)
Inductive MakeBucketOptions : Type := MakeBucketOptions_zero.
Inductive GetObjectOptions : Type := GetObjectOptions_zero.
Inductive RemoveObjectOptions : Type := RemoveObjectOptions_zero.
Record PutObjectOptions : Type := { ContentType : string }.
Record ListObjectsOptions : Type := { Prefix : string }.

Record UploadInfo : Type := { ETag : string; VersionID : string }.
Record ObjectInfo : Type := { Key : string; Size : Z }.

(** Every entry point of the library the sources call, with the
    arguments it is given. *)
Inductive Request : Type :=
| New_ (endpoint : string) (opts : Options)
| PresignedGetObject_ (c : Client) (ctx : context.Context)
    (bucketName objectName : string) (expires : Z)
| GetObject_ (c : Client) (ctx : context.Context)
    (bucketName objectName : string) (opts : GetObjectOptions)
| PutObject_ (c : Client) (ctx : context.Context)
    (bucketName objectName : string) (reader : string) (objectSize : Z)
    (opts : PutObjectOptions)
| RemoveObject_ (c : Client) (ctx : context.Context)
    (bucketName objectName : string) (opts : RemoveObjectOptions)
| MakeBucket_ (c : Client) (ctx : context.Context)
    (bucketName : string) (opts : MakeBucketOptions)
| ListObjects_ (c : Client) (ctx : context.Context)
    (bucketName : string) (opts : ListObjectsOptions)
| RemoveBucket_ (c : Client) (ctx : context.Context)
    (bucketName : string).

End minio.

(** ** Effects: the trace of what reaches the logger and the library *)

Inductive Event : Type :=
| Log (l : zerolog.Logger) (level : zerolog.Level) (m : zerolog.Message)
| Call (r : minio.Request).

Definition Trace : Type := list Event.

(** The requests of a trace, oldest first. *)
Fixpoint requests (t : Trace) : list minio.Request :=
  match t with
  | [] => []
  | Call r :: t' => r :: requests t'
  | Log _ _ _ :: t' => requests t'
  end.

(** A computation reads the trace so far and extends it. *)
Definition M (A : Type) : Type := Trace -> A * Trace.

Definition ret {A : Type} (a : A) : M A := fun t => (a, t).

Definition bind {A B : Type} (m : M A) (k : A -> M B) : M B :=
  fun t => let (a, t') := m t in k a t'.

Declare Scope m_scope.
Delimit Scope m_scope with m.
Notation "x <- m ;; k" := (bind m (fun x => k))
  (at level 61, m at next level, right associativity) : m_scope.
Notation "m ;; k" := (bind m (fun _ => k))
  (at level 61, right associativity) : m_scope.
Open Scope m_scope.

(** [logger.<Level>().Msg(..)] and [.Msgf(..)] *)
Definition log (l : zerolog.Logger) (level : zerolog.Level)
    (m : zerolog.Message) : M unit :=
  fun t => (tt, (t ++ [Log l level m])%list).

Definition Debug (l : zerolog.Logger) (m : zerolog.Message) : M unit :=
  log l zerolog.DebugLevel m.

Definition Warn (l : zerolog.Logger) (m : zerolog.Message) : M unit :=
  log l zerolog.WarnLevel m.

(** An error value made by the library, as the caller receives it. *)
Definition library_error (failure : option string) : error :=
  option_map minioError failure.

Module backend.

(** What the library and the store behind it answer.  Each answer is
    a function of the whole trace up to and including the request, so
    that it may depend on the arguments and on the past. *)
Record Backend : Type := {
  New_answer : Trace -> string + minio.Client;
  PresignedGetObject_answer : Trace -> string * option string;
  GetObject_answer : Trace -> string * option string;
  PutObject_answer : Trace -> minio.UploadInfo * option string;
  RemoveObject_answer : Trace -> option string;
  MakeBucket_answer : Trace -> option string;
  ListObjects_answer : Trace -> list minio.ObjectInfo;
  RemoveBucket_answer : Trace -> option string
}.

Definition call {A : Type} (r : minio.Request) (answer : Trace -> A)
  : M A :=
  fun t => let t' := (t ++ [Call r])%list in (answer t', t').

Section Calls.

Variable be : Backend.

(** [minio.New(endpoint, opts)] *)
Definition New (endpoint : string) (opts : minio.Options)
  : M (err + minio.Client) :=
  r <- call (minio.New_ endpoint opts) (New_answer be) ;;
  ret match r with
      | inl failure => inl (minioError failure)
      | inr c => inr c
      end.

Definition PresignedGetObject (c : minio.Client) (ctx : context.Context)
    (bucketName objectName : string) (expires : Z)
  : M (string * error) :=
  r <- call (minio.PresignedGetObject_ c ctx bucketName objectName expires)
         (PresignedGetObject_answer be) ;;
  ret (fst r, library_error (snd r)).

Definition GetObject (c : minio.Client) (ctx : context.Context)
    (bucketName objectName : string) (opts : minio.GetObjectOptions)
  : M (string * error) :=
  r <- call (minio.GetObject_ c ctx bucketName objectName opts)
         (GetObject_answer be) ;;
  ret (fst r, library_error (snd r)).

Definition PutObject (c : minio.Client) (ctx : context.Context)
    (bucketName objectName : string) (reader : string) (objectSize : Z)
    (opts : minio.PutObjectOptions)
  : M (minio.UploadInfo * error) :=
  r <- call (minio.PutObject_ c ctx bucketName objectName reader
               objectSize opts)
         (PutObject_answer be) ;;
  ret (fst r, library_error (snd r)).

Definition RemoveObject (c : minio.Client) (ctx : context.Context)
    (bucketName objectName : string) (opts : minio.RemoveObjectOptions)
  : M error :=
  r <- call (minio.RemoveObject_ c ctx bucketName objectName opts)
         (RemoveObject_answer be) ;;
  ret (library_error r).

Definition MakeBucket (c : minio.Client) (ctx : context.Context)
    (bucketName : string) (opts : minio.MakeBucketOptions)
  : M error :=
  r <- call (minio.MakeBucket_ c ctx bucketName opts)
         (MakeBucket_answer be) ;;
  ret (library_error r).

(** The channel is modelled by the sequence it delivers. *)
Definition ListObjects (c : minio.Client) (ctx : context.Context)
    (bucketName : string) (opts : minio.ListObjectsOptions)
  : M (list minio.ObjectInfo) :=
  call (minio.ListObjects_ c ctx bucketName opts)
    (ListObjects_answer be).

Definition RemoveBucket (c : minio.Client) (ctx : context.Context)
    (bucketName : string)
  : M error :=
  r <- call (minio.RemoveBucket_ c ctx bucketName)
         (RemoveBucket_answer be) ;;
  ret (library_error r).

End Calls.

End backend.

(** ** Package [s3], [src/s3.go] *)

Module s3.

Record Options : Type := {
  LogName : string;
  Disabled : bool;
  Endpoint : string;
  Secure : bool;
  Region : string;
  Bucket : string;
  AccessKey : string;
  SecretKey : string
}.

(** [S3] is a wrapper for the s3 client.  The struct's [cancel] field
    is the function bound to [ctx]: [context.cancel] applied to it. *)
Record S3 : Type := {
  logger : zerolog.Logger;
  options : Options;
  client : minio.Client;
  makeOpts : minio.MakeBucketOptions;
  getOpts : minio.GetObjectOptions;
  removeOpts : minio.RemoveObjectOptions;
  ctx : context.Context;
  wg : sync.WaitGroup
}.

Definition prefixedKey (prefix key : string) : string :=
  match fmt.Sprintf "%s/%s" [prefix; key] with
  | Some s => s
  | None => ""
  end.

Section WithBackend.

Variable be : backend.Backend.

Definition New (options : Options) (logger : zerolog.Logger)
  : M (option S3 * error) :=
  let l := zerolog.With_Str (LogName options) "S3" logger in
  if Disabled options then
    Warn l (zerolog.Msg "disabled") ;;
    ret (None, Some ErrDisabled)
  else
    Debug l (zerolog.Msgf "connecting to s3 endpoint %s with bucket '%s'"
               [zerolog.str (Endpoint options);
                zerolog.str (Bucket options)]) ;;
    r <- backend.New be (Endpoint options)
           {| minio.Creds :=
                minio.NewStaticV4 (AccessKey options) (SecretKey options) "";
              minio.Secure := Secure options;
              minio.Region := Region options |} ;;
    match r with
    | inl err =>
        ret (None, Some (Errorf_w "failed to create s3 client: " err))
    | inr client =>
        let ctx := context.WithCancel context.Background in
        ret (Some {| logger := l;
                     options := options;
                     client := client;
                     makeOpts := minio.MakeBucketOptions_zero;
                     getOpts := minio.GetObjectOptions_zero;
                     removeOpts := minio.RemoveObjectOptions_zero;
                     ctx := ctx;
                     wg := sync.zero |},
             None)
    end.

Definition PresignedGetObject (e : S3) (ctx : context.Context)
    (prefix key : string) (expires : Z) : M (string * error) :=
  let objName := prefixedKey prefix key in
  Debug (logger e)
    (zerolog.Msgf "presigning object '%s' from bucket '%s' with expiry %s"
       [zerolog.str objName; zerolog.str (Bucket (options e));
        zerolog.dur expires]) ;;
  backend.PresignedGetObject be (client e) ctx (Bucket (options e))
    objName expires.

Definition GetObject (e : S3) (ctx : context.Context)
    (prefix key : string) : M (string * error) :=
  let objName := prefixedKey prefix key in
  Debug (logger e)
    (zerolog.Msgf "getting object '%s' from bucket '%s'"
       [zerolog.str objName; zerolog.str (Bucket (options e))]) ;;
  backend.GetObject be (client e) ctx (Bucket (options e)) objName
    (getOpts e).

Definition PutObject (e : S3) (ctx : context.Context)
    (prefix key : string) (reader : string) (objectSize : Z)
    (contentType : string) : M (minio.UploadInfo * error) :=
  let objName := prefixedKey prefix key in
  Debug (logger e)
    (zerolog.Msgf "putting object '%s' into bucket '%s'"
       [zerolog.str objName; zerolog.str (Bucket (options e))]) ;;
  backend.PutObject be (client e) ctx (Bucket (options e)) objName
    reader objectSize {| minio.ContentType := contentType |}.

Definition DeleteObject (e : S3) (ctx : context.Context)
    (prefix key : string) : M error :=
  let objName := prefixedKey prefix key in
  Debug (logger e)
    (zerolog.Msgf "deleting object '%s' from bucket '%s'"
       [zerolog.str objName; zerolog.str (Bucket (options e))]) ;;
  backend.RemoveObject be (client e) ctx (Bucket (options e)) objName
    (removeOpts e).

Definition MakeBucket (e : S3) (ctx : context.Context)
    (bucket : string) : M error :=
  Debug (logger e)
    (zerolog.Msgf "making bucket '%s'" [zerolog.str bucket]) ;;
  backend.MakeBucket be (client e) ctx bucket (makeOpts e).

Definition ListObjects (e : S3) (ctx : context.Context)
    (prefix : string) : M (list minio.ObjectInfo) :=
  Debug (logger e)
    (zerolog.Msgf "listing objects with prefix '%s' in bucket '%s'"
       [zerolog.str prefix; zerolog.str (Bucket (options e))]) ;;
  backend.ListObjects be (client e) ctx (Bucket (options e))
    {| minio.Prefix := prefixedKey prefix "" |}.

Definition RemoveBucket (e : S3) (ctx : context.Context)
    (bucket : string) : M error :=
  Debug (logger e)
    (zerolog.Msgf "removing bucket '%s'" [zerolog.str bucket]) ;;
  backend.RemoveBucket be (client e) ctx bucket.

End WithBackend.

(** [e.cancel()] on the receiver. *)
Definition cancel (e : S3) : S3 :=
  {| logger := logger e;
     options := options e;
     client := client e;
     makeOpts := makeOpts e;
     getOpts := getOpts e;
     removeOpts := removeOpts e;
     ctx := context.cancel (ctx e);
     wg := wg e |}.

(** [Close] changes its receiver, so it gives it back with the result;
    [None] when the deferred [e.wg.Wait()] never returns.  The result
    is fixed by [return nil] before the deferred call runs. *)
Definition Close (e : S3) (t : Trace) : option (error * S3 * Trace) :=
  let (_, t1) := Debug (logger e) (zerolog.Msg "closing s3 client") t in
  let e1 := cancel e in
  let result : error := None in
  match sync.Wait (wg e1) with
  | Some _ => Some (result, e1, t1)
  | None => None
  end.

End s3.

(** ** Package [s3], [src/unnamed/part_000] *)

Module s3_part_000.

Record Options : Type := {
  LogName : string;
  Endpoint : string;
  Secure : bool;
  Region : string;
  Bucket : string;
  AccessKey : string;
  SecretKey : string
}.

(** [Client] is a wrapper for the s3 client.  The struct's [cancel]
    field is the function bound to [context]: [context.cancel] applied
    to it. *)
Record Client : Type := {
  logger : zerolog.Logger;
  options : Options;
  client : minio.Client;
  makeOpts : minio.MakeBucketOptions;
  getOpts : minio.GetObjectOptions;
  removeOpts : minio.RemoveObjectOptions;
  context : context.Context;
  wg : sync.WaitGroup
}.

Definition prefixedKey (prefix key : string) : string :=
  match fmt.Sprintf "%s/%s" [prefix; key] with
  | Some s => s
  | None => ""
  end.

Section WithBackend.

Variable be : backend.Backend.

Definition New (options : Options) (logger : zerolog.Logger)
  : M (option Client * error) :=
  let l := zerolog.With_Str (LogName options) "S3" logger in
  Debug l (zerolog.Msgf "connecting to s3 endpoint %s with bucket '%s'"
             [zerolog.str (Endpoint options);
              zerolog.str (Bucket options)]) ;;
  r <- backend.New be (Endpoint options)
         {| minio.Creds :=
              minio.NewStaticV4 (AccessKey options) (SecretKey options) "";
            minio.Secure := Secure options;
            minio.Region := Region options |} ;;
  match r with
  | inl err =>
      ret (None, Some (Errorf_w "failed to create s3 client: " err))
  | inr client =>
      let ctx := context.WithCancel context.Background in
      ret (Some {| logger := l;
                   options := options;
                   client := client;
                   makeOpts := minio.MakeBucketOptions_zero;
                   getOpts := minio.GetObjectOptions_zero;
                   removeOpts := minio.RemoveObjectOptions_zero;
                   context := ctx;
                   wg := sync.zero |},
           None)
  end.

Definition PresignedGetObject (e : Client) (ctx : context.Context)
    (prefix key : string) (expires : Z) : M (string * error) :=
  let objName := prefixedKey prefix key in
  Debug (logger e)
    (zerolog.Msgf "presigning object '%s' from bucket '%s' with expiry %s"
       [zerolog.str objName; zerolog.str (Bucket (options e));
        zerolog.dur expires]) ;;
  backend.PresignedGetObject be (client e) ctx (Bucket (options e))
    objName expires.

Definition GetObject (e : Client) (ctx : context.Context)
    (prefix key : string) : M (string * error) :=
  let objName := prefixedKey prefix key in
  Debug (logger e)
    (zerolog.Msgf "getting object '%s' from bucket '%s'"
       [zerolog.str objName; zerolog.str (Bucket (options e))]) ;;
  backend.GetObject be (client e) ctx (Bucket (options e)) objName
    (getOpts e).

Definition PutObject (e : Client) (ctx : context.Context)
    (prefix key : string) (reader : string) (objectSize : Z)
    (contentType : string) : M (minio.UploadInfo * error) :=
  let objName := prefixedKey prefix key in
  Debug (logger e)
    (zerolog.Msgf "putting object '%s' into bucket '%s'"
       [zerolog.str objName; zerolog.str (Bucket (options e))]) ;;
  backend.PutObject be (client e) ctx (Bucket (options e)) objName
    reader objectSize {| minio.ContentType := contentType |}.

Definition DeleteObject (e : Client) (ctx : context.Context)
    (prefix key : string) : M error :=
  let objName := prefixedKey prefix key in
  Debug (logger e)
    (zerolog.Msgf "deleting object '%s' from bucket '%s'"
       [zerolog.str objName; zerolog.str (Bucket (options e))]) ;;
  backend.RemoveObject be (client e) ctx (Bucket (options e)) objName
    (removeOpts e).

Definition MakeBucket (e : Client) (ctx : context.Context)
    (bucket : string) : M error :=
  Debug (logger e)
    (zerolog.Msgf "making bucket '%s'" [zerolog.str bucket]) ;;
  backend.MakeBucket be (client e) ctx bucket (makeOpts e).

Definition ListObjects (e : Client) (ctx : context.Context)
    (prefix : string) : M (list minio.ObjectInfo) :=
  Debug (logger e)
    (zerolog.Msgf "listing objects with prefix '%s' in bucket '%s'"
       [zerolog.str prefix; zerolog.str (Bucket (options e))]) ;;
  backend.ListObjects be (client e) ctx (Bucket (options e))
    {| minio.Prefix := prefixedKey prefix "" |}.

Definition RemoveBucket (e : Client) (ctx : context.Context)
    (bucket : string) : M error :=
  Debug (logger e)
    (zerolog.Msgf "removing bucket '%s'" [zerolog.str bucket]) ;;
  backend.RemoveBucket be (client e) ctx bucket.

End WithBackend.

(** [e.cancel()] on the receiver. *)
Definition cancel (e : Client) : Client :=
  {| logger := logger e;
     options := options e;
     client := client e;
     makeOpts := makeOpts e;
     getOpts := getOpts e;
     removeOpts := removeOpts e;
     context := context.cancel (context e);
     wg := wg e |}.

(** [Close] changes its receiver, so it gives it back with the result;
    [None] when the deferred [e.wg.Wait()] never returns.  The result
    is fixed by [return nil] before the deferred call runs. *)
Definition Close (e : Client) (t : Trace) : option (error * Client * Trace) :=
  let (_, t1) := Debug (logger e) (zerolog.Msg "closing s3 client") t in
  let e1 := cancel e in
  let result : error := None in
  match sync.Wait (wg e1) with
  | Some _ => Some (result, e1, t1)
  | None => None
  end.

End s3_part_000.

(** ** Package [s3], [src/unnamed/part_001] *)

Module s3_part_001.

Record Options : Type := {
  LogName : string;
  Endpoint : string;
  Secure : bool;
  Region : string;
  Prefix : string;
  AccessKey : string;
  SecretKey : string
}.

(** [Client] is a wrapper for the s3 client.  The struct's [cancel]
    field is the function bound to [context]: [context.cancel] applied
    to it. *)
Record Client : Type := {
  logger : zerolog.Logger;
  options : Options;
  client : minio.Client;
  makeOpts : minio.MakeBucketOptions;
  getOpts : minio.GetObjectOptions;
  putOpts : minio.PutObjectOptions;
  removeOpts : minio.RemoveObjectOptions;
  context : context.Context;
  wg : sync.WaitGroup
}.

Section WithBackend.

Variable be : backend.Backend.

Definition New (options : Options) (logger : zerolog.Logger)
  : M (option Client * error) :=
  let l := zerolog.With_Str (LogName options) "S3" logger in
  Debug l (zerolog.Msgf
             "connecting to s3 endpoint %s with bucket prefix '%s'"
             [zerolog.str (Endpoint options);
              zerolog.str (Prefix options)]) ;;
  r <- backend.New be (Endpoint options)
         {| minio.Creds :=
              minio.NewStaticV4 (AccessKey options) (SecretKey options) "";
            minio.Secure := Secure options;
            minio.Region := Region options |} ;;
  match r with
  | inl err =>
      ret (None, Some (Errorf_w "failed to create s3 client: " err))
  | inr client =>
      let ctx := context.WithCancel context.Background in
      ret (Some {| logger := l;
                   options := options;
                   client := client;
                   makeOpts := minio.MakeBucketOptions_zero;
                   getOpts := minio.GetObjectOptions_zero;
                   putOpts :=
                     {| minio.ContentType := "application/octet-stream" |};
                   removeOpts := minio.RemoveObjectOptions_zero;
                   context := ctx;
                   wg := sync.zero |},
           None)
  end.

Definition PresignedGetObject (e : Client) (ctx : context.Context)
    (bucket key : string) (expires : Z) : M (string * error) :=
  Debug (logger e)
    (zerolog.Msgf
       "presigning object '%s' from bucket '%s' (prefix '%s') with expiry %s"
       [zerolog.str key; zerolog.str bucket;
        zerolog.str (Prefix (options e)); zerolog.dur expires]) ;;
  backend.PresignedGetObject be (client e) ctx
    (Prefix (options e) ++ bucket) key expires.

Definition MakeBucket (e : Client) (ctx : context.Context)
    (bucket : string) : M error :=
  Debug (logger e)
    (zerolog.Msgf "making bucket '%s' (prefix '%s')"
       [zerolog.str bucket; zerolog.str (Prefix (options e))]) ;;
  backend.MakeBucket be (client e) ctx (Prefix (options e) ++ bucket)
    (makeOpts e).

Definition RemoveBucket (e : Client) (ctx : context.Context)
    (bucket : string) : M error :=
  Debug (logger e)
    (zerolog.Msgf "removing bucket '%s' (prefix '%s')"
       [zerolog.str bucket; zerolog.str (Prefix (options e))]) ;;
  backend.RemoveBucket be (client e) ctx (Prefix (options e) ++ bucket).

Definition GetObject (e : Client) (ctx : context.Context)
    (bucket key : string) : M (string * error) :=
  Debug (logger e)
    (zerolog.Msgf "getting object '%s' from bucket '%s' (prefix '%s')"
       [zerolog.str key; zerolog.str bucket;
        zerolog.str (Prefix (options e))]) ;;
  backend.GetObject be (client e) ctx (Prefix (options e) ++ bucket) key
    (getOpts e).

Definition PutObject (e : Client) (ctx : context.Context)
    (bucket key : string) (reader : string) (objectSize : Z)
  : M (minio.UploadInfo * error) :=
  Debug (logger e)
    (zerolog.Msgf "putting object '%s' into bucket '%s' (prefix '%s')"
       [zerolog.str key; zerolog.str bucket;
        zerolog.str (Prefix (options e))]) ;;
  backend.PutObject be (client e) ctx (Prefix (options e) ++ bucket) key
    reader objectSize (putOpts e).

Definition ListObjects (e : Client) (ctx : context.Context)
    (bucket subprefix : string) : M (list minio.ObjectInfo) :=
  Debug (logger e)
    (zerolog.Msgf
       "listing objects in bucket '%s' (prefix '%s') for subprefix %v"
       [zerolog.str bucket; zerolog.str (Prefix (options e));
        zerolog.str subprefix]) ;;
  backend.ListObjects be (client e) ctx (Prefix (options e) ++ bucket)
    {| minio.Prefix := subprefix |}.

Definition DeleteObject (e : Client) (ctx : context.Context)
    (bucket key : string) : M error :=
  Debug (logger e)
    (zerolog.Msgf "deleting object '%s' from bucket '%s' (prefix '%s')"
       [zerolog.str key; zerolog.str bucket;
        zerolog.str (Prefix (options e))]) ;;
  backend.RemoveObject be (client e) ctx (Prefix (options e) ++ bucket)
    key (removeOpts e).

End WithBackend.

(** [e.cancel()] on the receiver. *)
Definition cancel (e : Client) : Client :=
  {| logger := logger e;
     options := options e;
     client := client e;
     makeOpts := makeOpts e;
     getOpts := getOpts e;
     putOpts := putOpts e;
     removeOpts := removeOpts e;
     context := context.cancel (context e);
     wg := wg e |}.

(** [Close] changes its receiver, so it gives it back with the result;
    [None] when the deferred [e.wg.Wait()] never returns.  The result
    is fixed by [return nil] before the deferred call runs. *)
Definition Close (e : Client) (t : Trace)
  : option (error * Client * Trace) :=
  let (_, t1) := Debug (logger e) (zerolog.Msg "closing s3 client") t in
  let e1 := cancel e in
  let result : error := None in
  match sync.Wait (wg e1) with
  | Some _ => Some (result, e1, t1)
  | None => None
  end.

End s3_part_001.

(** ** The flag registries: [spf13/pflag] and [spf13/cobra]

    A flag is defined over a variable given by its address; here the
    variables are fields of a configuration [C], and the address of a
    field is modelled by the assignment through it, so that what is
    later written to the flag reaches the field. *)

Module pflag.

Inductive Var (C : Type) : Type :=
| boolVar (assign : bool -> C -> C)
| stringVar (assign : string -> C -> C).

Record Flag (C : Type) : Type := {
  Name : string;
  Usage : string;
  DefValue : string;
  Value : Var C;
  Annotations : list (string * list string)
}.

(** The formal flags, in the order of their definition. *)
Definition FlagSet (C : Type) : Type := list (Flag C).

Fixpoint Lookup {C : Type} (f : FlagSet C) (name : string)
  : option (Flag C) :=
  match f with
  | [] => None
  | flag :: rest =>
      if Name flag =? name then Some flag else Lookup rest name
  end.

(** [f.AddFlag(flag)] panics when the name is taken: [None]. *)
Definition AddFlag {C : Type} (f : FlagSet C) (flag : Flag C)
  : option (FlagSet C) :=
  match Lookup f (Name flag) with
  | Some _ => None
  | None => Some (f ++ [flag])%list
  end.

(** [strconv.FormatBool] *)
Definition FormatBool (b : bool) : string :=
  if b then "true" else "false".

(** [f.BoolVar(p, name, value, usage)]: [*p = value], then the flag is
    added.  The state is the flag set with the configuration [p] points
    into. *)
Definition BoolVar {C : Type} (p : bool -> C -> C) (name : string)
    (value : bool) (usage : string) (st : FlagSet C * C)
  : option (FlagSet C * C) :=
  let c := p value (snd st) in
  match AddFlag (fst st)
          {| Name := name; Usage := usage; DefValue := FormatBool value;
             Value := boolVar p; Annotations := [] |} with
  | Some f => Some (f, c)
  | None => None
  end.

(** [f.StringVar(p, name, value, usage)] *)
Definition StringVar {C : Type} (p : string -> C -> C) (name : string)
    (value : string) (usage : string) (st : FlagSet C * C)
  : option (FlagSet C * C) :=
  let c := p value (snd st) in
  match AddFlag (fst st)
          {| Name := name; Usage := usage; DefValue := value;
             Value := stringVar p; Annotations := [] |} with
  | Some f => Some (f, c)
  | None => None
  end.

(** [flag.Annotations[key] = values] *)
Definition annotate {C : Type} (key : string) (values : list string)
    (flag : Flag C) : Flag C :=
  {| Name := Name flag; Usage := Usage flag; DefValue := DefValue flag;
     Value := Value flag;
     Annotations :=
       (key, values)
         :: filter (fun kv => negb (fst kv =? key)) (Annotations flag) |}.

Definition annotation {C : Type} (flag : Flag C) (key : string)
  : option (list string) :=
  option_map snd (find (fun kv => fst kv =? key) (Annotations flag)).

(** [f.SetAnnotation(name, key, values)]: an error, known by its text,
    when no flag has the name. *)
Definition SetAnnotation {C : Type} (f : FlagSet C) (name key : string)
    (values : list string) : FlagSet C * option string :=
  match Lookup f name with
  | None => (f, Some ("no such flag -" ++ name))
  | Some _ =>
      (map (fun flag =>
              if Name flag =? name then annotate key values flag else flag)
           f,
       None)
  end.

End pflag.

Module cobra.

Definition BashCompOneRequiredFlag : string :=
  "cobra_annotation_bash_completion_one_required_flag".

(** Of a command, the flag set [c.Flags()] gives. *)
Record Command (C : Type) : Type := { Flags : pflag.FlagSet C }.

(** [c.MarkFlagRequired(name)] *)
Definition MarkFlagRequired {C : Type} (c : Command C) (name : string)
  : Command C * option string :=
  let (f, err) :=
    pflag.SetAnnotation (Flags c) name BashCompOneRequiredFlag ["true"] in
  ({| Flags := f |}, err).

End cobra.

(** Running on while nothing panicked. *)
Definition and_then {A B : Type} (m : option A) (k : A -> option B)
  : option B :=
  match m with
  | Some a => k a
  | None => None
  end.

(** ** Package [config], [src/pkg/config/config.go] lines 17-104 *)

Module config.

Definition DefaultDisabled : bool := false.
Definition DefaultSecure : bool := true.
Definition DefaultRegion : string := "auto".

Record Config : Type := {
  Disabled : bool;
  Endpoint : string;
  Secure : bool;
  Region : string;
  Bucket : string;
  AccessKey : string;
  SecretKey : string
}.

(** Fields left out of the composite literal take their zero value. *)
Definition New : Config :=
  {| Disabled := DefaultDisabled;
     Endpoint := "";
     Secure := DefaultSecure;
     Region := DefaultRegion;
     Bucket := "";
     AccessKey := "";
     SecretKey := "" |}.

Definition Validate (c : Config) : error :=
  if negb (Disabled c) then
    if Endpoint c =? "" then Some ErrEndpointRequired
    else if Region c =? "" then Some ErrRegionRequired
    else if Bucket c =? "" then Some ErrBucketRequired
    else if AccessKey c =? "" then Some ErrAccessKeyRequired
    else if SecretKey c =? "" then Some ErrSecretKeyRequired
    else None
  else None.

Definition GenerateOptions (c : Config) (logName : string)
  : s3.Options :=
  {| s3.LogName := logName;
     s3.Disabled := Disabled c;
     s3.Secure := Secure c;
     s3.Region := Region c;
     s3.Endpoint := Endpoint c;
     s3.Bucket := Bucket c;
     s3.AccessKey := AccessKey c;
     s3.SecretKey := SecretKey c |}.

(** The addresses [&c.Disabled], ..., [&c.SecretKey]. *)
Definition store_Disabled (v : bool) (c : Config) : Config :=
  {| Disabled := v; Endpoint := Endpoint c; Secure := Secure c;
     Region := Region c; Bucket := Bucket c; AccessKey := AccessKey c;
     SecretKey := SecretKey c |}.

Definition store_Endpoint (v : string) (c : Config) : Config :=
  {| Disabled := Disabled c; Endpoint := v; Secure := Secure c;
     Region := Region c; Bucket := Bucket c; AccessKey := AccessKey c;
     SecretKey := SecretKey c |}.

Definition store_Secure (v : bool) (c : Config) : Config :=
  {| Disabled := Disabled c; Endpoint := Endpoint c; Secure := v;
     Region := Region c; Bucket := Bucket c; AccessKey := AccessKey c;
     SecretKey := SecretKey c |}.

Definition store_Region (v : string) (c : Config) : Config :=
  {| Disabled := Disabled c; Endpoint := Endpoint c; Secure := Secure c;
     Region := v; Bucket := Bucket c; AccessKey := AccessKey c;
     SecretKey := SecretKey c |}.

Definition store_Bucket (v : string) (c : Config) : Config :=
  {| Disabled := Disabled c; Endpoint := Endpoint c; Secure := Secure c;
     Region := Region c; Bucket := v; AccessKey := AccessKey c;
     SecretKey := SecretKey c |}.

Definition store_AccessKey (v : string) (c : Config) : Config :=
  {| Disabled := Disabled c; Endpoint := Endpoint c; Secure := Secure c;
     Region := Region c; Bucket := Bucket c; AccessKey := v;
     SecretKey := SecretKey c |}.

Definition store_SecretKey (v : string) (c : Config) : Config :=
  {| Disabled := Disabled c; Endpoint := Endpoint c; Secure := Secure c;
     Region := Region c; Bucket := Bucket c; AccessKey := AccessKey c;
     SecretKey := v |}.

(** The receiver and the flag set both change; [None] is a panic. *)
Definition RootPersistentFlags (c : Config) (flags : pflag.FlagSet Config)
  : option (pflag.FlagSet Config * Config) :=
  and_then (pflag.BoolVar store_Disabled "s3-disabled" DefaultDisabled
              "Disable s3" (flags, c)) (fun st =>
  and_then (pflag.StringVar store_Endpoint "s3-endpoint" ""
              "The s3 endpoint" st) (fun st =>
  and_then (pflag.BoolVar store_Secure "s3-secure" DefaultSecure
              "The s3 secure flag" st) (fun st =>
  and_then (pflag.StringVar store_Region "s3-region" DefaultRegion
              "The s3 region" st) (fun st =>
  and_then (pflag.StringVar store_Bucket "s3-bucket" ""
              "The s3 bucket to use" st) (fun st =>
  and_then (pflag.StringVar store_AccessKey "s3-access-key" ""
              "The s3 access key" st) (fun st =>
  pflag.StringVar store_SecretKey "s3-secret-key" ""
    "The s3 secret key" st)))))).

End config.

(** ** Package [config], [src/pkg/config/config.go] lines 121-226 *)

Module config_yaml.

Definition DefaultSecure : bool := true.
Definition DefaultRegion : string := "auto".

Record Config : Type := {
  Endpoint : string;
  Secure : bool;
  Region : string;
  Bucket : string;
  AccessKey : string;
  SecretKey : string
}.

Definition New : Config :=
  {| Endpoint := "";
     Secure := DefaultSecure;
     Region := DefaultRegion;
     Bucket := "";
     AccessKey := "";
     SecretKey := "" |}.

Definition Validate (c : Config) : error :=
  if Endpoint c =? "" then Some ErrEndpointRequired
  else if Region c =? "" then Some ErrRegionRequired
  else if Bucket c =? "" then Some ErrBucketRequired
  else if AccessKey c =? "" then Some ErrAccessKeyRequired
  else if SecretKey c =? "" then Some ErrSecretKeyRequired
  else None.

Definition GenerateOptions (c : Config) (logName : string)
  : s3_part_000.Options :=
  {| s3_part_000.LogName := logName;
     s3_part_000.Secure := Secure c;
     s3_part_000.Region := Region c;
     s3_part_000.Endpoint := Endpoint c;
     s3_part_000.Bucket := Bucket c;
     s3_part_000.AccessKey := AccessKey c;
     s3_part_000.SecretKey := SecretKey c |}.

(** The addresses [&c.Endpoint], ..., [&c.SecretKey]. *)
Definition store_Endpoint (v : string) (c : Config) : Config :=
  {| Endpoint := v; Secure := Secure c; Region := Region c;
     Bucket := Bucket c; AccessKey := AccessKey c;
     SecretKey := SecretKey c |}.

Definition store_Secure (v : bool) (c : Config) : Config :=
  {| Endpoint := Endpoint c; Secure := v; Region := Region c;
     Bucket := Bucket c; AccessKey := AccessKey c;
     SecretKey := SecretKey c |}.

Definition store_Region (v : string) (c : Config) : Config :=
  {| Endpoint := Endpoint c; Secure := Secure c; Region := v;
     Bucket := Bucket c; AccessKey := AccessKey c;
     SecretKey := SecretKey c |}.

Definition store_Bucket (v : string) (c : Config) : Config :=
  {| Endpoint := Endpoint c; Secure := Secure c; Region := Region c;
     Bucket := v; AccessKey := AccessKey c; SecretKey := SecretKey c |}.

Definition store_AccessKey (v : string) (c : Config) : Config :=
  {| Endpoint := Endpoint c; Secure := Secure c; Region := Region c;
     Bucket := Bucket c; AccessKey := v; SecretKey := SecretKey c |}.

Definition store_SecretKey (v : string) (c : Config) : Config :=
  {| Endpoint := Endpoint c; Secure := Secure c; Region := Region c;
     Bucket := Bucket c; AccessKey := AccessKey c; SecretKey := v |}.

(** The receiver and the flag set both change; [None] is a panic. *)
Definition RootPersistentFlags (c : Config) (flags : pflag.FlagSet Config)
  : option (pflag.FlagSet Config * Config) :=
  and_then (pflag.StringVar store_Endpoint "s3-endpoint" ""
              "The s3 endpoint" (flags, c)) (fun st =>
  and_then (pflag.BoolVar store_Secure "s3-secure" DefaultSecure
              "The s3 secure flag" st) (fun st =>
  and_then (pflag.StringVar store_Region "s3-region" DefaultRegion
              "The s3 region" st) (fun st =>
  and_then (pflag.StringVar store_Bucket "s3-bucket" ""
              "The s3 bucket to use" st) (fun st =>
  and_then (pflag.StringVar store_AccessKey "s3-access-key" ""
              "The s3 access key" st) (fun st =>
  pflag.StringVar store_SecretKey "s3-secret-key" ""
    "The s3 secret key" st))))).

(** The command changes; the error is cobra's, known by its text. *)
Definition GlobalRequiredFlags (c : Config) (cmd : cobra.Command Config)
  : cobra.Command Config * option string :=
  let (cmd, err) := cobra.MarkFlagRequired cmd "s3-endpoint" in
  match err with
  | Some _ => (cmd, err)
  | None =>
  let (cmd, err) := cobra.MarkFlagRequired cmd "s3-bucket" in
  match err with
  | Some _ => (cmd, err)
  | None =>
  let (cmd, err) := cobra.MarkFlagRequired cmd "s3-access-key" in
  match err with
  | Some _ => (cmd, err)
  | None =>
  let (cmd, err) := cobra.MarkFlagRequired cmd "s3-secret-key" in
  match err with
  | Some _ => (cmd, err)
  | None => (cmd, None)
  end end end end.

End config_yaml.

(** ** The validation order, as the specification words it

    The required fields in the fixed order endpoint, region, bucket,
    access key, secret key, each with its own error; the answer is the
    error of the first empty one, and success when there is none. *)

Definition first_missing (fields : list (string * err)) : error :=
  option_map snd (find (fun f => fst f =? "") fields).

Definition required_order (endpoint region bucket access_key secret_key : string)
  : list (string * err) :=
  [ (endpoint, ErrEndpointRequired);
    (region, ErrRegionRequired);
    (bucket, ErrBucketRequired);
    (access_key, ErrAccessKeyRequired);
    (secret_key, ErrSecretKeyRequired) ].

(** ** What is said of a computation *)

(** [m] sends the library exactly the request [r], whatever came
    before. *)
Definition issues {A : Type} (m : M A) (r : minio.Request) : Prop :=
  forall t : Trace, requests (snd (m t)) = (requests t ++ [r])%list.

(** [m] sends the library nothing. *)
Definition silent {A : Type} (m : M A) : Prop :=
  forall t : Trace, requests (snd (m t)) = requests t.

(** [c] occurs in [s]. *)
Fixpoint occurs (c : ascii) (s : string) : bool :=
  match s with
  | EmptyString => false
  | String c' s' => Ascii.eqb c c' || occurs c s'
  end.

(** ** The clients a program can hold

    The fields of the wrappers are unexported and the zero value has a
    nil logger, so a usable client comes from [New]; of all the methods
    only [Close] changes the receiver. *)

Inductive live_s3 (be : backend.Backend) : s3.S3 -> Prop :=
| live_s3_New : forall options logger t e t',
    s3.New be options logger t = (Some e, None, t') -> live_s3 be e
| live_s3_Close : forall e t result e' t',
    live_s3 be e -> s3.Close e t = Some (result, e', t') -> live_s3 be e'.

Inductive live_000 (be : backend.Backend) : s3_part_000.Client -> Prop :=
| live_000_New : forall options logger t e t',
    s3_part_000.New be options logger t = (Some e, None, t') -> live_000 be e
| live_000_Close : forall e t result e' t',
    live_000 be e -> s3_part_000.Close e t = Some (result, e', t') ->
    live_000 be e'.

Inductive live_001 (be : backend.Backend) : s3_part_001.Client -> Prop :=
| live_001_New : forall options logger t e t',
    s3_part_001.New be options logger t = (Some e, None, t') -> live_001 be e
| live_001_Close : forall e t result e' t',
    live_001 be e -> s3_part_001.Close e t = Some (result, e', t') ->
    live_001 be e'.

(** The state [New] leaves behind and [Close] keeps: nothing pending on
    the wait group, and a lifecycle context made by [WithCancel] from
    the background context. *)
Definition fresh_lifecycle (c : context.Context) (w : sync.WaitGroup) : Prop :=
  w = sync.zero /\ exists done, c = context.cancelCtx context.Background done.

(** ** A store to run the clients against

    It refuses an empty endpoint, numbers its sessions, presigns by
    writing the address out and holds no object. *)

Definition last_request (t : Trace) : option minio.Request :=
  last (map Some (requests t)) None.

Definition sample_backend : backend.Backend :=
  {| backend.New_answer := fun t =>
       match last_request t with
       | Some (minio.New_ "" _) =>
           inl "Endpoint:  does not follow ip address or domain name standards."
       | _ => inr {| minio.session := List.length (requests t) |}
       end;
     backend.PresignedGetObject_answer := fun t =>
       match last_request t with
       | Some (minio.PresignedGetObject_ _ _ b o _) =>
           ("https://play.min.io/" ++ b ++ "/" ++ o, None)
       | _ => ("", None)
       end;
     backend.GetObject_answer := fun _ =>
       ("", Some "The specified key does not exist.");
     backend.PutObject_answer := fun _ =>
       ({| minio.ETag := "d41d8cd98f00b204e9800998ecf8427e";
           minio.VersionID := "" |}, None);
     backend.RemoveObject_answer := fun _ => None;
     backend.MakeBucket_answer := fun _ => None;
     backend.ListObjects_answer := fun _ => [];
     backend.RemoveBucket_answer := fun _ => None |}.

Definition sample_logger : zerolog.Logger := {| zerolog.fields := [] |}.

Definition sample_s3_options : s3.Options :=
  {| s3.LogName := "storage";
     s3.Disabled := false;
     s3.Endpoint := "play.min.io";
     s3.Secure := true;
     s3.Region := "auto";
     s3.Bucket := "artifacts";
     s3.AccessKey := "AKIA";
     s3.SecretKey := "secret" |}.

(** Switched off, with nothing else filled in. *)
Definition sample_disabled_options : s3.Options :=
  {| s3.LogName := "storage";
     s3.Disabled := true;
     s3.Endpoint := "";
     s3.Secure := false;
     s3.Region := "";
     s3.Bucket := "";
     s3.AccessKey := "";
     s3.SecretKey := "" |}.

(** Switched on, with an endpoint the library refuses. *)
Definition sample_no_endpoint_options : s3.Options :=
  {| s3.LogName := "storage";
     s3.Disabled := false;
     s3.Endpoint := "";
     s3.Secure := true;
     s3.Region := "auto";
     s3.Bucket := "artifacts";
     s3.AccessKey := "AKIA";
     s3.SecretKey := "secret" |}.

Definition sample_000_options : s3_part_000.Options :=
  {| s3_part_000.LogName := "storage";
     s3_part_000.Endpoint := "play.min.io";
     s3_part_000.Secure := true;
     s3_part_000.Region := "auto";
     s3_part_000.Bucket := "artifacts";
     s3_part_000.AccessKey := "AKIA";
     s3_part_000.SecretKey := "secret" |}.

Definition sample_001_options : s3_part_001.Options :=
  {| s3_part_001.LogName := "storage";
     s3_part_001.Endpoint := "play.min.io";
     s3_part_001.Secure := true;
     s3_part_001.Region := "auto";
     s3_part_001.Prefix := "tenant-";
     s3_part_001.AccessKey := "AKIA";
     s3_part_001.SecretKey := "secret" |}.

(** Configurations to validate. *)
Definition sample_config_complete : config.Config :=
  {| config.Disabled := false;
     config.Endpoint := "play.min.io";
     config.Secure := true;
     config.Region := "auto";
     config.Bucket := "artifacts";
     config.AccessKey := "AKIA";
     config.SecretKey := "secret" |}.

Definition sample_config_no_bucket : config.Config :=
  {| config.Disabled := false;
     config.Endpoint := "play.min.io";
     config.Secure := true;
     config.Region := "auto";
     config.Bucket := "";
     config.AccessKey := "";
     config.SecretKey := "secret" |}.

Definition sample_config_no_endpoint_no_bucket : config.Config :=
  {| config.Disabled := false;
     config.Endpoint := "";
     config.Secure := true;
     config.Region := "auto";
     config.Bucket := "";
     config.AccessKey := "AKIA";
     config.SecretKey := "secret" |}.

Definition sample_config_disabled_empty : config.Config :=
  {| config.Disabled := true;
     config.Endpoint := "";
     config.Secure := false;
     config.Region := "";
     config.Bucket := "";
     config.AccessKey := "";
     config.SecretKey := "" |}.

Definition sample_yaml_config : config_yaml.Config :=
  {| config_yaml.Endpoint := "play.min.io";
     config_yaml.Secure := false;
     config_yaml.Region := "eu-west-1";
     config_yaml.Bucket := "artifacts";
     config_yaml.AccessKey := "AKIA";
     config_yaml.SecretKey := "secret" |}.

(** Flag sets to mark: the one the second revision registers on an
    empty set, and one with the endpoint flag alone. *)
Definition sample_yaml_flags : pflag.FlagSet config_yaml.Config :=
  match config_yaml.RootPersistentFlags sample_yaml_config [] with
  | Some (flags, _) => flags
  | None => []
  end.

Definition sample_endpoint_only_flags : pflag.FlagSet config_yaml.Config :=
  match pflag.StringVar config_yaml.store_Endpoint "s3-endpoint" ""
          "The s3 endpoint" ([], sample_yaml_config) with
  | Some (flags, _) => flags
  | None => []
  end.

(** A second client on the same session, with a longer prefix. *)
Definition sample_001_client_longer : s3_part_001.Client :=
  {| s3_part_001.logger := {| zerolog.fields := [("other", "S3")] |};
     s3_part_001.options :=
       {| s3_part_001.LogName := "other";
          s3_part_001.Endpoint := "play.min.io";
          s3_part_001.Secure := true;
          s3_part_001.Region := "auto";
          s3_part_001.Prefix := "tenant-a";
          s3_part_001.AccessKey := "AKIA";
          s3_part_001.SecretKey := "secret" |};
     s3_part_001.client := {| minio.session := 1 |};
     s3_part_001.makeOpts := minio.MakeBucketOptions_zero;
     s3_part_001.getOpts := minio.GetObjectOptions_zero;
     s3_part_001.putOpts :=
       {| minio.ContentType := "application/octet-stream" |};
     s3_part_001.removeOpts := minio.RemoveObjectOptions_zero;
     s3_part_001.context := context.cancelCtx context.Background false;
     s3_part_001.wg := sync.zero |}.

(** The sample options under other credentials, region and transport. *)
Definition sample_s3_options_other_keys : s3.Options :=
  {| s3.LogName := "storage";
     s3.Disabled := false;
     s3.Endpoint := "play.min.io";
     s3.Secure := false;
     s3.Region := "eu-west-1";
     s3.Bucket := "artifacts";
     s3.AccessKey := "Q3AM3UQ867SPQQA43P2F";
     s3.SecretKey := "zuf+tfteSlswRu7BJ86wekitnifILbZam1KYY3TG" |}.

(** A client value whose wait group counts three pending pieces of
    work, as a goroutine registered with [wg.Add] would leave it. *)
Definition sample_s3_client_pending : s3.S3 :=
  {| s3.logger := {| zerolog.fields := [("storage", "S3")] |};
     s3.options :=
       {| s3.LogName := "storage"; s3.Disabled := false;
          s3.Endpoint := "play.min.io"; s3.Secure := true;
          s3.Region := "auto"; s3.Bucket := "artifacts";
          s3.AccessKey := "AKIA"; s3.SecretKey := "secret" |};
     s3.client := {| minio.session := 1 |};
     s3.makeOpts := minio.MakeBucketOptions_zero;
     s3.getOpts := minio.GetObjectOptions_zero;
     s3.removeOpts := minio.RemoveObjectOptions_zero;
     s3.ctx := context.cancelCtx context.Background false;
     s3.wg := {| sync.counter := 3 |} |}.

(** The client each [New] gives on the samples, from an empty trace. *)
Definition sample_s3_client : s3.S3 :=
  {| s3.logger := {| zerolog.fields := [("storage", "S3")] |};
     s3.options := sample_s3_options;
     s3.client := {| minio.session := 1 |};
     s3.makeOpts := minio.MakeBucketOptions_zero;
     s3.getOpts := minio.GetObjectOptions_zero;
     s3.removeOpts := minio.RemoveObjectOptions_zero;
     s3.ctx := context.cancelCtx context.Background false;
     s3.wg := sync.zero |}.

Definition sample_000_client : s3_part_000.Client :=
  {| s3_part_000.logger := {| zerolog.fields := [("storage", "S3")] |};
     s3_part_000.options := sample_000_options;
     s3_part_000.client := {| minio.session := 1 |};
     s3_part_000.makeOpts := minio.MakeBucketOptions_zero;
     s3_part_000.getOpts := minio.GetObjectOptions_zero;
     s3_part_000.removeOpts := minio.RemoveObjectOptions_zero;
     s3_part_000.context := context.cancelCtx context.Background false;
     s3_part_000.wg := sync.zero |}.

Definition sample_001_client : s3_part_001.Client :=
  {| s3_part_001.logger := {| zerolog.fields := [("storage", "S3")] |};
     s3_part_001.options := sample_001_options;
     s3_part_001.client := {| minio.session := 1 |};
     s3_part_001.makeOpts := minio.MakeBucketOptions_zero;
     s3_part_001.getOpts := minio.GetObjectOptions_zero;
     s3_part_001.putOpts :=
       {| minio.ContentType := "application/octet-stream" |};
     s3_part_001.removeOpts := minio.RemoveObjectOptions_zero;
     s3_part_001.context := context.cancelCtx context.Background false;
     s3_part_001.wg := sync.zero |}.

(** ** Vocabulary for the properties of keys and flags *)

(** [strings.HasPrefix(s, prefix)], the test a listing filter makes. *)
Fixpoint has_prefix (s prefix : string) {struct prefix} : bool :=
  match prefix, s with
  | EmptyString, _ => true
  | String _ _, EmptyString => false
  | String a prefix', String b s' => Ascii.eqb a b && has_prefix s' prefix'
  end.

(** The flag names of the two revisions, in the order of definition,
    and the ones the second revision marks as required. *)
Definition config_flag_names : list string :=
  ["s3-disabled"; "s3-endpoint"; "s3-secure"; "s3-region"; "s3-bucket";
   "s3-access-key"; "s3-secret-key"].

Definition config_yaml_flag_names : list string :=
  ["s3-endpoint"; "s3-secure"; "s3-region"; "s3-bucket"; "s3-access-key";
   "s3-secret-key"].

Definition required_flag_names : list string :=
  ["s3-endpoint"; "s3-bucket"; "s3-access-key"; "s3-secret-key"].

(** None of [names] is a flag of [f]. *)
Definition undefined_in {C : Type} (f : pflag.FlagSet C)
    (names : list string) : Prop :=
  forall n, In n names -> pflag.Lookup f n = None.

Definition defined {C : Type} (f : pflag.FlagSet C) (name : string) : bool :=
  match pflag.Lookup f name with
  | Some _ => true
  | None => false
  end.

(** The flag [name] of [f] carries cobra's required mark. *)
Definition required {C : Type} (f : pflag.FlagSet C) (name : string)
  : bool :=
  match pflag.Lookup f name with
  | Some flag =>
      match pflag.annotation flag cobra.BashCompOneRequiredFlag with
      | Some ["true"] => true
      | _ => false
      end
  | None => false
  end.

(** What parsing does with a flag once its text is read: the value is
    written through the variable the flag was defined over; [None] when
    there is no such flag of that type. *)
Definition write_string {C : Type} (f : pflag.FlagSet C) (name : string)
    (v : string) (c : C) : option C :=
  match pflag.Lookup f name with
  | Some {| pflag.Value := pflag.stringVar assign |} => Some (assign v c)
  | _ => None
  end.

Definition write_bool {C : Type} (f : pflag.FlagSet C) (name : string)
    (v : bool) (c : C) : option C :=
  match pflag.Lookup f name with
  | Some {| pflag.Value := pflag.boolVar assign |} => Some (assign v c)
  | _ => None
  end.

(** The entries of a trace that went to the logger, oldest first. *)
Fixpoint logs (t : Trace)
  : list (zerolog.Logger * zerolog.Level * zerolog.Message) :=
  match t with
  | [] => []
  | Log l level m :: t' => (l, level, m) :: logs t'
  | Call _ :: t' => logs t'
  end.

(** The names of [names] up to the first one [f] does not define. *)
Fixpoint while_defined {C : Type} (f : pflag.FlagSet C)
    (names : list string) : list string :=
  match names with
  | [] => []
  | n :: rest => if defined f n then n :: while_defined f rest else []
  end.

(** The error text for the first of [names] that [f] does not define. *)
Definition first_undefined {C : Type} (f : pflag.FlagSet C)
    (names : list string) : option string :=
  option_map (append "no such flag -")
    (find (fun n => negb (defined f n)) names).

(** * Properties *)

(** ** Strings and formats *)

Lemma append_empty_r (s : string) : s ++ "" = s.
Proof. induction s as [|c s IH]; simpl; [reflexivity | now rewrite IH]. Qed.

Lemma occurs_append (c : ascii) (a b : string) :
  occurs c (a ++ b) = occurs c a || occurs c b.
Proof.
  induction a as [|x a IH]; simpl; [reflexivity|].
  now rewrite IH, orb_assoc.
Qed.

(** The two operands are copied around the separator whatever bytes
    they hold, percent signs included. *)
Lemma Sprintf_slash (prefix key : string) :
  fmt.Sprintf "%s/%s" [prefix; key] = Some (prefix ++ "/" ++ key).
Proof.
  cbn. now rewrite append_empty_r.
Qed.

Lemma s3_prefixedKey_eq (prefix key : string) :
  s3.prefixedKey prefix key = prefix ++ "/" ++ key.
Proof. unfold s3.prefixedKey. now rewrite Sprintf_slash. Qed.

Lemma part_000_prefixedKey_eq (prefix key : string) :
  s3_part_000.prefixedKey prefix key = prefix ++ "/" ++ key.
Proof. unfold s3_part_000.prefixedKey. now rewrite Sprintf_slash. Qed.

(** ** Traces *)

Lemma requests_app (t u : Trace) :
  requests (t ++ u)%list = (requests t ++ requests u)%list.
Proof.
  induction t as [|[l lv m | r] t IH]; simpl; [reflexivity | exact IH |].
  now rewrite IH.
Qed.

Lemma requests_log (t : Trace) l lv m :
  requests (t ++ [Log l lv m])%list = requests t.
Proof. rewrite requests_app. simpl. apply app_nil_r. Qed.

Lemma requests_call (t : Trace) (r : minio.Request) :
  requests (t ++ [Call r])%list = (requests t ++ [r])%list.
Proof. now rewrite requests_app. Qed.

(** A log entry followed by one call: the shape of every operation. *)
Lemma issues_log_call {A B : Type} l m (r : minio.Request)
    (answer : Trace -> A) (k : A -> B) :
  issues (Debug l m ;; x <- backend.call r answer ;; ret (k x)) r.
Proof.
  intro t. unfold bind, Debug, log, backend.call, ret. simpl.
  now rewrite requests_call, requests_log.
Qed.

Lemma issues_log_call_bare {A : Type} l m (r : minio.Request)
    (answer : Trace -> A) :
  issues (Debug l m ;; backend.call r answer) r.
Proof.
  intro t. unfold bind, Debug, log, backend.call. simpl.
  now rewrite requests_call, requests_log.
Qed.

Ltac one_request :=
  first [ apply issues_log_call | apply issues_log_call_bare ].

Ltac unfold_ops :=
  unfold s3.PresignedGetObject, s3.GetObject, s3.PutObject, s3.DeleteObject,
    s3.MakeBucket, s3.ListObjects, s3.RemoveBucket,
    s3_part_000.PresignedGetObject, s3_part_000.GetObject,
    s3_part_000.PutObject, s3_part_000.DeleteObject,
    s3_part_000.MakeBucket, s3_part_000.ListObjects,
    s3_part_000.RemoveBucket,
    s3_part_001.PresignedGetObject, s3_part_001.GetObject,
    s3_part_001.PutObject, s3_part_001.DeleteObject,
    s3_part_001.MakeBucket, s3_part_001.ListObjects,
    s3_part_001.RemoveBucket,
    backend.PresignedGetObject, backend.GetObject, backend.PutObject,
    backend.RemoveObject, backend.MakeBucket, backend.ListObjects,
    backend.RemoveBucket.

Ltac settle_op :=
  intros; unfold_ops; cbv zeta;
  rewrite ?s3_prefixedKey_eq, ?part_000_prefixedKey_eq;
  one_request.

(** ** Namespacing *)

(** C1. Bucket-fixed strategy ([src/s3.go], [src/unnamed/part_000]):
    each of PresignedGetObject, GetObject, PutObject and DeleteObject,
    given a (prefix, key) pair, sends the library one request, on the
    client's bucket, whose object name is prefix + "/" + key, for all
    strings prefix and key; and resolving prefix "logs" with key
    "2024/01/a.txt" gives "logs/2024/01/a.txt". *)
Theorem bucket_fixed_object_key (be : backend.Backend) :
  (forall e ctx prefix key expires,
      issues (s3.PresignedGetObject be e ctx prefix key expires)
        (minio.PresignedGetObject_ (s3.client e) ctx
           (s3.Bucket (s3.options e)) (prefix ++ "/" ++ key) expires)) /\
  (forall e ctx prefix key,
      issues (s3.GetObject be e ctx prefix key)
        (minio.GetObject_ (s3.client e) ctx
           (s3.Bucket (s3.options e)) (prefix ++ "/" ++ key) (s3.getOpts e))) /\
  (forall e ctx prefix key reader objectSize contentType,
      issues (s3.PutObject be e ctx prefix key reader objectSize contentType)
        (minio.PutObject_ (s3.client e) ctx
           (s3.Bucket (s3.options e)) (prefix ++ "/" ++ key) reader objectSize
           {| minio.ContentType := contentType |})) /\
  (forall e ctx prefix key,
      issues (s3.DeleteObject be e ctx prefix key)
        (minio.RemoveObject_ (s3.client e) ctx
           (s3.Bucket (s3.options e)) (prefix ++ "/" ++ key)
           (s3.removeOpts e))) /\
  (forall e ctx prefix key expires,
      issues (s3_part_000.PresignedGetObject be e ctx prefix key expires)
        (minio.PresignedGetObject_ (s3_part_000.client e) ctx
           (s3_part_000.Bucket (s3_part_000.options e))
           (prefix ++ "/" ++ key) expires)) /\
  (forall e ctx prefix key,
      issues (s3_part_000.GetObject be e ctx prefix key)
        (minio.GetObject_ (s3_part_000.client e) ctx
           (s3_part_000.Bucket (s3_part_000.options e))
           (prefix ++ "/" ++ key) (s3_part_000.getOpts e))) /\
  (forall e ctx prefix key reader objectSize contentType,
      issues
        (s3_part_000.PutObject be e ctx prefix key reader objectSize
           contentType)
        (minio.PutObject_ (s3_part_000.client e) ctx
           (s3_part_000.Bucket (s3_part_000.options e))
           (prefix ++ "/" ++ key) reader objectSize
           {| minio.ContentType := contentType |})) /\
  (forall e ctx prefix key,
      issues (s3_part_000.DeleteObject be e ctx prefix key)
        (minio.RemoveObject_ (s3_part_000.client e) ctx
           (s3_part_000.Bucket (s3_part_000.options e))
           (prefix ++ "/" ++ key) (s3_part_000.removeOpts e))) /\
  s3.prefixedKey "logs" "2024/01/a.txt" = "logs/2024/01/a.txt" /\
  s3_part_000.prefixedKey "logs" "2024/01/a.txt" = "logs/2024/01/a.txt".
Proof.
  repeat split; try reflexivity; settle_op.
Qed.

(** C2. Prefix-as-namespace strategy ([src/unnamed/part_001]): each
    object operation, given a (bucket, key) pair, sends the library one
    request whose bucket is the configured prefix directly followed by
    the bucket and whose object name is the key as given, for all
    strings; ListObjects filters by the sub-prefix the caller supplies. *)
Theorem prefix_namespace_bucket (be : backend.Backend) :
  (forall e ctx bucket key expires,
      issues (s3_part_001.PresignedGetObject be e ctx bucket key expires)
        (minio.PresignedGetObject_ (s3_part_001.client e) ctx
           (s3_part_001.Prefix (s3_part_001.options e) ++ bucket) key
           expires)) /\
  (forall e ctx bucket key,
      issues (s3_part_001.GetObject be e ctx bucket key)
        (minio.GetObject_ (s3_part_001.client e) ctx
           (s3_part_001.Prefix (s3_part_001.options e) ++ bucket) key
           (s3_part_001.getOpts e))) /\
  (forall e ctx bucket key reader objectSize,
      issues (s3_part_001.PutObject be e ctx bucket key reader objectSize)
        (minio.PutObject_ (s3_part_001.client e) ctx
           (s3_part_001.Prefix (s3_part_001.options e) ++ bucket) key
           reader objectSize (s3_part_001.putOpts e))) /\
  (forall e ctx bucket key,
      issues (s3_part_001.DeleteObject be e ctx bucket key)
        (minio.RemoveObject_ (s3_part_001.client e) ctx
           (s3_part_001.Prefix (s3_part_001.options e) ++ bucket) key
           (s3_part_001.removeOpts e))) /\
  (forall e ctx bucket subprefix,
      issues (s3_part_001.ListObjects be e ctx bucket subprefix)
        (minio.ListObjects_ (s3_part_001.client e) ctx
           (s3_part_001.Prefix (s3_part_001.options e) ++ bucket)
           {| minio.Prefix := subprefix |})).
Proof.
  repeat split; settle_op.
Qed.

(** C8. Bucket lifecycle: in the bucket-fixed variants MakeBucket and
    RemoveBucket hand the caller's bucket name to the library as it is
    (the client's own bucket and prefixes play no part); in the
    prefix-as-namespace variant both put the configured prefix in front
    of the bucket name. *)
Theorem bucket_lifecycle_names (be : backend.Backend) :
  (forall e ctx bucket,
      issues (s3.MakeBucket be e ctx bucket)
        (minio.MakeBucket_ (s3.client e) ctx bucket (s3.makeOpts e))) /\
  (forall e ctx bucket,
      issues (s3.RemoveBucket be e ctx bucket)
        (minio.RemoveBucket_ (s3.client e) ctx bucket)) /\
  (forall e ctx bucket,
      issues (s3_part_000.MakeBucket be e ctx bucket)
        (minio.MakeBucket_ (s3_part_000.client e) ctx bucket
           (s3_part_000.makeOpts e))) /\
  (forall e ctx bucket,
      issues (s3_part_000.RemoveBucket be e ctx bucket)
        (minio.RemoveBucket_ (s3_part_000.client e) ctx bucket)) /\
  (forall e ctx bucket,
      issues (s3_part_001.MakeBucket be e ctx bucket)
        (minio.MakeBucket_ (s3_part_001.client e) ctx
           (s3_part_001.Prefix (s3_part_001.options e) ++ bucket)
           (s3_part_001.makeOpts e))) /\
  (forall e ctx bucket,
      issues (s3_part_001.RemoveBucket be e ctx bucket)
        (minio.RemoveBucket_ (s3_part_001.client e) ctx
           (s3_part_001.Prefix (s3_part_001.options e) ++ bucket))).
Proof.
  repeat split; settle_op.
Qed.

Lemma occurs_slash_joined (prefix key : string) :
  occurs "/" (prefix ++ "/" ++ key) = true.
Proof.
  rewrite occurs_append. simpl. apply orb_true_r.
Qed.

(** C9. In the bucket-fixed variants the resolved key always holds the
    "/" separator: an empty prefix gives "/" + key, an empty key gives
    prefix + "/", ListObjects filters by prefix + "/", and an operation
    on empty components still goes to the library, with object name
    "/" (nothing is normalised or turned down). *)
Theorem separator_always_present (be : backend.Backend) :
  (forall key, s3.prefixedKey "" key = "/" ++ key) /\
  (forall prefix, s3.prefixedKey prefix "" = prefix ++ "/") /\
  (forall prefix key, occurs "/" (s3.prefixedKey prefix key) = true) /\
  (forall key, s3_part_000.prefixedKey "" key = "/" ++ key) /\
  (forall prefix, s3_part_000.prefixedKey prefix "" = prefix ++ "/") /\
  (forall prefix key,
      occurs "/" (s3_part_000.prefixedKey prefix key) = true) /\
  (forall e ctx prefix,
      issues (s3.ListObjects be e ctx prefix)
        (minio.ListObjects_ (s3.client e) ctx (s3.Bucket (s3.options e))
           {| minio.Prefix := prefix ++ "/" |})) /\
  (forall e ctx prefix,
      issues (s3_part_000.ListObjects be e ctx prefix)
        (minio.ListObjects_ (s3_part_000.client e) ctx
           (s3_part_000.Bucket (s3_part_000.options e))
           {| minio.Prefix := prefix ++ "/" |})) /\
  (forall e ctx,
      issues (s3.GetObject be e ctx "" "")
        (minio.GetObject_ (s3.client e) ctx (s3.Bucket (s3.options e)) "/"
           (s3.getOpts e))) /\
  (forall e ctx,
      issues (s3_part_000.GetObject be e ctx "" "")
        (minio.GetObject_ (s3_part_000.client e) ctx
           (s3_part_000.Bucket (s3_part_000.options e)) "/"
           (s3_part_000.getOpts e))).
Proof.
  repeat apply conj; intros;
    rewrite ?s3_prefixedKey_eq, ?part_000_prefixedKey_eq;
    try reflexivity; try apply occurs_slash_joined.
  - unfold_ops. rewrite s3_prefixedKey_eq. one_request.
  - unfold_ops. rewrite part_000_prefixedKey_eq. one_request.
  - unfold_ops. cbv zeta. rewrite s3_prefixedKey_eq. one_request.
  - unfold_ops. cbv zeta. rewrite part_000_prefixedKey_eq. one_request.
Qed.

(** ** What holds of every live client *)

Ltac run_New H :=
  unfold s3.New, s3_part_000.New, s3_part_001.New, backend.New,
    backend.call, bind, ret, Debug, Warn, log in H;
  simpl in H.

Ltac run_Close H :=
  unfold s3.Close, s3_part_000.Close, s3_part_001.Close, Debug, log in H;
  simpl in H.

Lemma fresh_lifecycle_cancel c w :
  fresh_lifecycle c w -> fresh_lifecycle (context.cancel c) w.
Proof.
  intros [Hw [done Hc]]. split; [exact Hw|].
  subst c. now exists true.
Qed.

Lemma fresh_lifecycle_cancelled c w :
  fresh_lifecycle c w -> context.cancelled (context.cancel c) = true.
Proof. intros [_ [done Hc]]. now subst c. Qed.

Lemma live_s3_lifecycle be e :
  live_s3 be e -> fresh_lifecycle (s3.ctx e) (s3.wg e).
Proof.
  induction 1 as [options logger t e t' HNew | e t result e' t' Hlive IH HClose].
  - run_New HNew.
    destruct (s3.Disabled options); [discriminate|].
    simpl in HNew.
    destruct (backend.New_answer be _) as [failure | c]; [discriminate|].
    inversion HNew; subst; simpl.
    split; [reflexivity | now exists false].
  - run_Close HClose.
    destruct (sync.Wait (s3.wg e)); [|discriminate].
    inversion HClose; subst; simpl.
    now apply fresh_lifecycle_cancel.
Qed.

Lemma live_000_lifecycle be e :
  live_000 be e ->
  fresh_lifecycle (s3_part_000.context e) (s3_part_000.wg e).
Proof.
  induction 1 as [options logger t e t' HNew | e t result e' t' Hlive IH HClose].
  - run_New HNew.
    destruct (backend.New_answer be _) as [failure | c]; [discriminate|].
    inversion HNew; subst; simpl.
    split; [reflexivity | now exists false].
  - run_Close HClose.
    destruct (sync.Wait (s3_part_000.wg e)); [|discriminate].
    inversion HClose; subst; simpl.
    now apply fresh_lifecycle_cancel.
Qed.

Lemma live_001_lifecycle be e :
  live_001 be e ->
  fresh_lifecycle (s3_part_001.context e) (s3_part_001.wg e).
Proof.
  induction 1 as [options logger t e t' HNew | e t result e' t' Hlive IH HClose].
  - run_New HNew.
    destruct (backend.New_answer be _) as [failure | c]; [discriminate|].
    inversion HNew; subst; simpl.
    split; [reflexivity | now exists false].
  - run_Close HClose.
    destruct (sync.Wait (s3_part_001.wg e)); [|discriminate].
    inversion HClose; subst; simpl.
    now apply fresh_lifecycle_cancel.
Qed.

(** [putOpts] is written once, by [New]. *)
Lemma live_001_putOpts be e :
  live_001 be e ->
  s3_part_001.putOpts e =
    {| minio.ContentType := "application/octet-stream" |}.
Proof.
  induction 1 as [options logger t e t' HNew | e t result e' t' Hlive IH HClose].
  - run_New HNew.
    destruct (backend.New_answer be _) as [failure | c]; [discriminate|].
    now inversion HNew.
  - run_Close HClose.
    destruct (sync.Wait (s3_part_001.wg e)); [|discriminate].
    inversion HClose; subst; simpl. exact IH.
Qed.

(** ** Uploads *)

(** C7. Where PutObject takes no content type ([src/unnamed/part_001])
    every upload of a live client goes to the library with content type
    "application/octet-stream"; where it takes one ([src/s3.go],
    [src/unnamed/part_000]) the argument goes to the library as given. *)
Theorem upload_content_type (be : backend.Backend) :
  (forall e, live_001 be e ->
     forall ctx bucket key reader objectSize,
       issues (s3_part_001.PutObject be e ctx bucket key reader objectSize)
         (minio.PutObject_ (s3_part_001.client e) ctx
            (s3_part_001.Prefix (s3_part_001.options e) ++ bucket) key
            reader objectSize
            {| minio.ContentType := "application/octet-stream" |})) /\
  (forall e ctx prefix key reader objectSize contentType,
     issues (s3.PutObject be e ctx prefix key reader objectSize contentType)
       (minio.PutObject_ (s3.client e) ctx (s3.Bucket (s3.options e))
          (s3.prefixedKey prefix key) reader objectSize
          {| minio.ContentType := contentType |})) /\
  (forall e ctx prefix key reader objectSize contentType,
     issues
       (s3_part_000.PutObject be e ctx prefix key reader objectSize
          contentType)
       (minio.PutObject_ (s3_part_000.client e) ctx
          (s3_part_000.Bucket (s3_part_000.options e))
          (s3_part_000.prefixedKey prefix key) reader objectSize
          {| minio.ContentType := contentType |})).
Proof.
  repeat apply conj.
  - intros e Hlive ctx bucket key reader objectSize.
    rewrite <- (live_001_putOpts Hlive).
    unfold_ops. one_request.
  - intros. unfold_ops. cbv zeta. one_request.
  - intros. unfold_ops. cbv zeta. one_request.
Qed.

Lemma upload_content_type_witness :
  live_001 sample_backend sample_001_client /\
  issues
    (s3_part_001.PutObject sample_backend sample_001_client
       context.Background "alpha" "2024/01/a.txt" "payload" 7%Z)
    (minio.PutObject_ {| minio.session := 1 |} context.Background
       "tenant-alpha" "2024/01/a.txt" "payload" 7%Z
       {| minio.ContentType := "application/octet-stream" |}).
Proof.
  assert (Hlive : live_001 sample_backend sample_001_client).
  { apply live_001_New
      with (options := sample_001_options) (logger := sample_logger)
           (t := [])
           (t' := snd (s3_part_001.New sample_backend sample_001_options
                         sample_logger [])).
    reflexivity. }
  split.
  - exact Hlive.
  - exact (proj1 (upload_content_type sample_backend) sample_001_client
             Hlive context.Background "alpha" "2024/01/a.txt" "payload"
             7%Z).
Defined.

(** ** Closing *)

Lemma Close_s3_result e t result e' t' :
  s3.Close e t = Some (result, e', t') -> result = None.
Proof.
  intro H. run_Close H.
  destruct (sync.Wait (s3.wg e)); [now inversion H | discriminate].
Qed.

Lemma Close_000_result e t result e' t' :
  s3_part_000.Close e t = Some (result, e', t') -> result = None.
Proof.
  intro H. run_Close H.
  destruct (sync.Wait (s3_part_000.wg e)); [now inversion H | discriminate].
Qed.

Lemma Close_001_result e t result e' t' :
  s3_part_001.Close e t = Some (result, e', t') -> result = None.
Proof.
  intro H. run_Close H.
  destruct (sync.Wait (s3_part_001.wg e)); [now inversion H | discriminate].
Qed.

Lemma Wait_returns (wg : sync.WaitGroup) :
  sync.Wait wg = Some tt <-> sync.counter wg = 0.
Proof.
  unfold sync.Wait. destruct (sync.counter wg); split;
    solve [reflexivity | discriminate].
Qed.

Lemma Close_s3_waits e t result e' t' :
  s3.Close e t = Some (result, e', t') ->
  sync.counter (s3.wg e) = 0 /\ e' = s3.cancel e /\
  t' = (t ++ [Log (s3.logger e) zerolog.DebugLevel
                (zerolog.Msg "closing s3 client")])%list.
Proof.
  intro H. run_Close H.
  destruct (sync.Wait (s3.wg e)) as [[]|] eqn:Hw; [|discriminate].
  apply Wait_returns in Hw. now inversion H.
Qed.

Lemma Close_000_waits e t result e' t' :
  s3_part_000.Close e t = Some (result, e', t') ->
  sync.counter (s3_part_000.wg e) = 0 /\ e' = s3_part_000.cancel e /\
  t' = (t ++ [Log (s3_part_000.logger e) zerolog.DebugLevel
                (zerolog.Msg "closing s3 client")])%list.
Proof.
  intro H. run_Close H.
  destruct (sync.Wait (s3_part_000.wg e)) as [[]|] eqn:Hw; [|discriminate].
  apply Wait_returns in Hw. now inversion H.
Qed.

Lemma Close_001_waits e t result e' t' :
  s3_part_001.Close e t = Some (result, e', t') ->
  sync.counter (s3_part_001.wg e) = 0 /\ e' = s3_part_001.cancel e /\
  t' = (t ++ [Log (s3_part_001.logger e) zerolog.DebugLevel
                (zerolog.Msg "closing s3 client")])%list.
Proof.
  intro H. run_Close H.
  destruct (sync.Wait (s3_part_001.wg e)) as [[]|] eqn:Hw; [|discriminate].
  apply Wait_returns in Hw. now inversion H.
Qed.

Lemma Wait_blocks (wg : sync.WaitGroup) :
  sync.counter wg <> 0 -> sync.Wait wg = None.
Proof.
  unfold sync.Wait. destruct (sync.counter wg); [now intros [] | reflexivity].
Qed.

(** C10. Close returns a nil error.  On every live client of each of
    the three variants, as often as it is called, it logs, cancels the
    lifecycle context, finds nothing to wait for and returns nil.  It
    waits for the completion tracker: on any client at all a call of
    Close returns only with nothing pending on the wait group, having
    logged and cancelled, and then with nil; while work is pending it
    does not return, so no call can return an error. *)
Theorem Close_returns_nil (be : backend.Backend) :
  (forall e, live_s3 be e -> forall t,
      s3.Close e t =
        Some (None, s3.cancel e,
              (t ++ [Log (s3.logger e) zerolog.DebugLevel
                       (zerolog.Msg "closing s3 client")])%list) /\
      context.cancelled (s3.ctx (s3.cancel e)) = true) /\
  (forall e, live_000 be e -> forall t,
      s3_part_000.Close e t =
        Some (None, s3_part_000.cancel e,
              (t ++ [Log (s3_part_000.logger e) zerolog.DebugLevel
                       (zerolog.Msg "closing s3 client")])%list) /\
      context.cancelled (s3_part_000.context (s3_part_000.cancel e)) = true) /\
  (forall e, live_001 be e -> forall t,
      s3_part_001.Close e t =
        Some (None, s3_part_001.cancel e,
              (t ++ [Log (s3_part_001.logger e) zerolog.DebugLevel
                       (zerolog.Msg "closing s3 client")])%list) /\
      context.cancelled (s3_part_001.context (s3_part_001.cancel e)) = true) /\
  (forall e t result e' t',
      s3.Close e t = Some (result, e', t') -> result = None) /\
  (forall e t result e' t',
      s3_part_000.Close e t = Some (result, e', t') -> result = None) /\
  (forall e t result e' t',
      s3_part_001.Close e t = Some (result, e', t') -> result = None) /\
  (forall e t result e' t',
      s3.Close e t = Some (result, e', t') ->
      sync.counter (s3.wg e) = 0 /\ e' = s3.cancel e /\
      t' = (t ++ [Log (s3.logger e) zerolog.DebugLevel
                    (zerolog.Msg "closing s3 client")])%list) /\
  (forall e t result e' t',
      s3_part_000.Close e t = Some (result, e', t') ->
      sync.counter (s3_part_000.wg e) = 0 /\ e' = s3_part_000.cancel e /\
      t' = (t ++ [Log (s3_part_000.logger e) zerolog.DebugLevel
                    (zerolog.Msg "closing s3 client")])%list) /\
  (forall e t result e' t',
      s3_part_001.Close e t = Some (result, e', t') ->
      sync.counter (s3_part_001.wg e) = 0 /\ e' = s3_part_001.cancel e /\
      t' = (t ++ [Log (s3_part_001.logger e) zerolog.DebugLevel
                    (zerolog.Msg "closing s3 client")])%list) /\
  (forall e t, sync.counter (s3.wg e) <> 0 -> s3.Close e t = None) /\
  (forall e t,
      sync.counter (s3_part_000.wg e) <> 0 -> s3_part_000.Close e t = None) /\
  (forall e t,
      sync.counter (s3_part_001.wg e) <> 0 -> s3_part_001.Close e t = None).
Proof.
  repeat apply conj.
  - intros e Hlive t.
    pose proof (live_s3_lifecycle Hlive) as Hfresh.
    split; [|now apply fresh_lifecycle_cancelled with (w := s3.wg e)].
    destruct Hfresh as [Hwg _].
    unfold s3.Close, Debug, log. simpl. now rewrite Hwg.
  - intros e Hlive t.
    pose proof (live_000_lifecycle Hlive) as Hfresh.
    split;
      [|now apply fresh_lifecycle_cancelled with (w := s3_part_000.wg e)].
    destruct Hfresh as [Hwg _].
    unfold s3_part_000.Close, Debug, log. simpl. now rewrite Hwg.
  - intros e Hlive t.
    pose proof (live_001_lifecycle Hlive) as Hfresh.
    split;
      [|now apply fresh_lifecycle_cancelled with (w := s3_part_001.wg e)].
    destruct Hfresh as [Hwg _].
    unfold s3_part_001.Close, Debug, log. simpl. now rewrite Hwg.
  - exact Close_s3_result.
  - exact Close_000_result.
  - exact Close_001_result.
  - exact Close_s3_waits.
  - exact Close_000_waits.
  - exact Close_001_waits.
  - intros e t Hpending. unfold s3.Close, Debug, log. cbn [fst snd].
    change (s3.wg (s3.cancel e)) with (s3.wg e).
    now rewrite (@Wait_blocks (s3.wg e) Hpending).
  - intros e t Hpending. unfold s3_part_000.Close, Debug, log. cbn [fst snd].
    change (s3_part_000.wg (s3_part_000.cancel e)) with (s3_part_000.wg e).
    now rewrite (@Wait_blocks (s3_part_000.wg e) Hpending).
  - intros e t Hpending. unfold s3_part_001.Close, Debug, log. cbn [fst snd].
    change (s3_part_001.wg (s3_part_001.cancel e)) with (s3_part_001.wg e).
    now rewrite (@Wait_blocks (s3_part_001.wg e) Hpending).
Qed.

Lemma Close_returns_nil_witness :
  (live_s3 sample_backend sample_s3_client /\
   live_s3 sample_backend (s3.cancel sample_s3_client) /\
   s3.Close sample_s3_client [] =
     Some (None, s3.cancel sample_s3_client,
           [Log {| zerolog.fields := [("storage", "S3")] |}
              zerolog.DebugLevel (zerolog.Msg "closing s3 client")]) /\
   s3.Close (s3.cancel sample_s3_client) [] =
     Some (None, s3.cancel (s3.cancel sample_s3_client),
           [Log {| zerolog.fields := [("storage", "S3")] |}
              zerolog.DebugLevel (zerolog.Msg "closing s3 client")])) /\
  (live_000 sample_backend sample_000_client /\
   s3_part_000.Close sample_000_client [] =
     Some (None, s3_part_000.cancel sample_000_client,
           [Log {| zerolog.fields := [("storage", "S3")] |}
              zerolog.DebugLevel (zerolog.Msg "closing s3 client")])) /\
  (live_001 sample_backend sample_001_client /\
   s3_part_001.Close sample_001_client [] =
     Some (None, s3_part_001.cancel sample_001_client,
           [Log {| zerolog.fields := [("storage", "S3")] |}
              zerolog.DebugLevel (zerolog.Msg "closing s3 client")])) /\
  (sync.counter (s3.wg sample_s3_client) = 0 /\
   sync.counter (s3.wg sample_s3_client_pending) <> 0 /\
   s3.Close sample_s3_client_pending [] = None).
Proof.
  assert (Hlive : live_s3 sample_backend sample_s3_client).
  { apply live_s3_New
      with (options := sample_s3_options) (logger := sample_logger)
           (t := [])
           (t' := snd (s3.New sample_backend sample_s3_options
                         sample_logger [])).
    reflexivity. }
  assert (Hlive' : live_s3 sample_backend (s3.cancel sample_s3_client)).
  { apply live_s3_Close
      with (e := sample_s3_client) (t := []) (result := None)
           (t' := [Log {| zerolog.fields := [("storage", "S3")] |}
                     zerolog.DebugLevel (zerolog.Msg "closing s3 client")]).
    - exact Hlive.
    - reflexivity. }
  assert (Hlive0 : live_000 sample_backend sample_000_client).
  { apply live_000_New
      with (options := sample_000_options) (logger := sample_logger)
           (t := [])
           (t' := snd (s3_part_000.New sample_backend sample_000_options
                         sample_logger [])).
    reflexivity. }
  assert (Hlive1 : live_001 sample_backend sample_001_client).
  { apply live_001_New
      with (options := sample_001_options) (logger := sample_logger)
           (t := [])
           (t' := snd (s3_part_001.New sample_backend sample_001_options
                         sample_logger [])).
    reflexivity. }
  assert (Hpending : sync.counter (s3.wg sample_s3_client_pending) <> 0)
    by discriminate.
  pose proof (Close_returns_nil sample_backend)
    as [Hs3 [H000 [H001 [_ [_ [_ [Hwaits [_ [_ [Hblocks _]]]]]]]]]].
  repeat apply conj.
  - exact Hlive.
  - exact Hlive'.
  - exact (proj1 (Hs3 sample_s3_client Hlive [])).
  - exact (proj1 (Hs3 (s3.cancel sample_s3_client) Hlive' [])).
  - exact Hlive0.
  - exact (proj1 (H000 sample_000_client Hlive0 [])).
  - exact Hlive1.
  - exact (proj1 (H001 sample_001_client Hlive1 [])).
  - exact (proj1 (Hwaits sample_s3_client [] None
                    (s3.cancel sample_s3_client)
                    [Log {| zerolog.fields := [("storage", "S3")] |}
                       zerolog.DebugLevel (zerolog.Msg "closing s3 client")]
                    (proj1 (Hs3 sample_s3_client Hlive [])))).
  - exact Hpending.
  - exact (Hblocks sample_s3_client_pending [] Hpending).
Defined.

(** A run on the sample store: build the client, fetch an object, then
    close twice. *)
Example sample_run :
  let '(e, _, t1) :=
    s3.New sample_backend sample_s3_options sample_logger [] in
  match e with
  | None => False
  | Some e =>
      let '(_, t2) :=
        s3.GetObject sample_backend e (context.callerCtx 7) "logs"
          "2024/01/a.txt" t1 in
      requests t2 =
        [minio.New_ "play.min.io"
           {| minio.Creds := minio.NewStaticV4 "AKIA" "secret" "";
              minio.Secure := true; minio.Region := "auto" |};
         minio.GetObject_ {| minio.session := 1 |} (context.callerCtx 7)
           "artifacts" "logs/2024/01/a.txt" minio.GetObjectOptions_zero] /\
      match s3.Close e t2 with
      | Some (r1, e1, t3) =>
          r1 = None /\
          match s3.Close e1 t3 with
          | Some (r2, e2, _) =>
              r2 = None /\ context.cancelled (s3.ctx e2) = true
          | None => False
          end
      | None => False
      end
  end.
Proof. vm_compute. repeat split. Qed.

(** ** Construction *)

Lemma wrapped_library_error_not_disabled (prefix failure : string) :
  Errorf_w prefix (minioError failure) <> ErrDisabled /\
  errors_Is (Errorf_w prefix (minioError failure)) ErrDisabled = false.
Proof. split; [discriminate | reflexivity]. Qed.

(** C5. [New] of [src/s3.go] on options with [Disabled] set returns no
    client and the [ErrDisabled] sentinel at once: a warning is logged
    and the library is not called, so no session is built.  Every other
    failure of [New] is a different error, one that [errors.Is] does not
    match with [ErrDisabled] either. *)
Theorem New_disabled (be : backend.Backend) :
  (forall options logger t,
      s3.Disabled options = true ->
      s3.New be options logger t =
        (None, Some ErrDisabled,
         (t ++ [Log (zerolog.With_Str (s3.LogName options) "S3" logger)
                  zerolog.WarnLevel (zerolog.Msg "disabled")])%list)) /\
  (forall options logger,
      s3.Disabled options = true -> silent (s3.New be options logger)) /\
  (forall options logger t failure,
      s3.Disabled options = false ->
      snd (fst (s3.New be options logger t)) = Some failure ->
      failure <> ErrDisabled /\ errors_Is failure ErrDisabled = false).
Proof.
  repeat apply conj.
  - intros options logger t Hd.
    unfold s3.New. now rewrite Hd.
  - intros options logger Hd t.
    unfold s3.New. rewrite Hd.
    unfold bind, Warn, log, ret. simpl. apply requests_log.
  - intros options logger t failure Hd H.
    unfold s3.New in H. rewrite Hd in H.
    run_New H.
    destruct (backend.New_answer be _) as [msg | c]; simpl in H.
    + inversion H; subst. apply wrapped_library_error_not_disabled.
    + discriminate.
Qed.

Lemma New_disabled_witness :
  s3.New sample_backend sample_disabled_options sample_logger [] =
    (None, Some ErrDisabled,
     [Log {| zerolog.fields := [("storage", "S3")] |} zerolog.WarnLevel
        (zerolog.Msg "disabled")]) /\
  requests
    (snd (s3.New sample_backend sample_disabled_options sample_logger [])) =
    [] /\
  snd (fst (s3.New sample_backend sample_no_endpoint_options sample_logger
              [])) =
    Some (wrapError
            "failed to create s3 client: Endpoint:  does not follow ip address or domain name standards."
            (minioError
               "Endpoint:  does not follow ip address or domain name standards.")) /\
  errors_Is
    (wrapError
       "failed to create s3 client: Endpoint:  does not follow ip address or domain name standards."
       (minioError
          "Endpoint:  does not follow ip address or domain name standards."))
    ErrDisabled = false.
Proof.
  repeat apply conj.
  - exact (proj1 (New_disabled sample_backend) sample_disabled_options
             sample_logger [] eq_refl).
  - exact (proj1 (proj2 (New_disabled sample_backend))
             sample_disabled_options sample_logger eq_refl []).
  - reflexivity.
  - exact (proj2 (proj2 (proj2 (New_disabled sample_backend))
                    sample_no_endpoint_options sample_logger [] _
                    eq_refl eq_refl)).
Defined.

(** ** Configuration *)

Lemma first_missing_order (endpoint region bucket access_key secret_key : string) :
  first_missing (required_order endpoint region bucket access_key secret_key) =
    if endpoint =? "" then Some ErrEndpointRequired
    else if region =? "" then Some ErrRegionRequired
    else if bucket =? "" then Some ErrBucketRequired
    else if access_key =? "" then Some ErrAccessKeyRequired
    else if secret_key =? "" then Some ErrSecretKeyRequired
    else None.
Proof.
  unfold first_missing, required_order. simpl.
  destruct (endpoint =? ""); [reflexivity|].
  destruct (region =? ""); [reflexivity|].
  destruct (bucket =? ""); [reflexivity|].
  destruct (access_key =? ""); [reflexivity|].
  destruct (secret_key =? ""); reflexivity.
Qed.

Lemma eqb_empty_false (s : string) : s <> "" -> (s =? "") = false.
Proof. intro H. now apply String.eqb_neq. Qed.

(** C3. On every configuration that is not disabled (in the revision
    without the flag: on every configuration) Validate returns the error
    of the first empty field in the order endpoint, region, bucket,
    access key, secret key, and nil when none is empty; the five errors
    are pairwise distinct; with endpoint and bucket both empty the
    answer is ErrEndpointRequired. *)
Theorem Validate_first_missing :
  (forall c : config.Config,
      config.Disabled c = false ->
      config.Validate c =
        first_missing
          (required_order (config.Endpoint c) (config.Region c)
             (config.Bucket c) (config.AccessKey c) (config.SecretKey c))) /\
  (forall c : config_yaml.Config,
      config_yaml.Validate c =
        first_missing
          (required_order (config_yaml.Endpoint c) (config_yaml.Region c)
             (config_yaml.Bucket c) (config_yaml.AccessKey c)
             (config_yaml.SecretKey c))) /\
  NoDup [ErrEndpointRequired; ErrRegionRequired; ErrBucketRequired;
         ErrAccessKeyRequired; ErrSecretKeyRequired] /\
  (forall c : config.Config,
      config.Disabled c = false ->
      config.Endpoint c = "" -> config.Bucket c = "" ->
      config.Validate c = Some ErrEndpointRequired) /\
  (forall c : config_yaml.Config,
      config_yaml.Endpoint c = "" -> config_yaml.Bucket c = "" ->
      config_yaml.Validate c = Some ErrEndpointRequired) /\
  (forall c : config.Config,
      config.Disabled c = false ->
      config.Endpoint c <> "" -> config.Region c <> "" ->
      config.Bucket c <> "" -> config.AccessKey c <> "" ->
      config.SecretKey c <> "" ->
      config.Validate c = None) /\
  (forall c : config_yaml.Config,
      config_yaml.Endpoint c <> "" -> config_yaml.Region c <> "" ->
      config_yaml.Bucket c <> "" -> config_yaml.AccessKey c <> "" ->
      config_yaml.SecretKey c <> "" ->
      config_yaml.Validate c = None).
Proof.
  repeat apply conj.
  - intros c Hd. rewrite first_missing_order.
    unfold config.Validate. now rewrite Hd.
  - intro c. now rewrite first_missing_order.
  - repeat constructor; simpl; intuition discriminate.
  - intros c Hd He _. unfold config.Validate. now rewrite Hd, He.
  - intros c He _. unfold config_yaml.Validate. now rewrite He.
  - intros c Hd He Hr Hb Ha Hs. unfold config.Validate.
    now rewrite Hd, !eqb_empty_false.
  - intros c He Hr Hb Ha Hs. unfold config_yaml.Validate.
    now rewrite !eqb_empty_false.
Qed.

Lemma Validate_first_missing_witness :
  config.Validate sample_config_no_endpoint_no_bucket =
    Some ErrEndpointRequired /\
  config.Validate sample_config_no_bucket = Some ErrBucketRequired /\
  config.Validate sample_config_complete = None.
Proof.
  repeat apply conj.
  - exact (proj1 (proj2 (proj2 (proj2 Validate_first_missing)))
             sample_config_no_endpoint_no_bucket eq_refl eq_refl eq_refl).
  - exact (proj1 Validate_first_missing sample_config_no_bucket eq_refl).
  - apply (proj1 (proj2 (proj2 (proj2 (proj2 (proj2 Validate_first_missing)))))
             sample_config_complete eq_refl); discriminate.
Defined.

(** C4. In the revision with the flag, Validate succeeds on every
    configuration whose Disabled is true, whatever the other fields
    hold, all of them empty included. *)
Theorem Validate_disabled (c : config.Config) :
  config.Disabled c = true -> config.Validate c = None.
Proof.
  intro Hd. unfold config.Validate. now rewrite Hd.
Qed.

Lemma Validate_disabled_witness :
  config.Validate sample_config_disabled_empty = None.
Proof.
  exact (Validate_disabled sample_config_disabled_empty eq_refl).
Defined.

(** C6. The configuration New returns has secure = true, region =
    "auto", disabled = false (where the field exists) and every other
    field empty; Validate on it fails with ErrEndpointRequired. *)
Theorem New_defaults :
  config.New =
    {| config.Disabled := false; config.Endpoint := "";
       config.Secure := true; config.Region := "auto";
       config.Bucket := ""; config.AccessKey := "";
       config.SecretKey := "" |} /\
  config.Validate config.New = Some ErrEndpointRequired /\
  config_yaml.New =
    {| config_yaml.Endpoint := ""; config_yaml.Secure := true;
       config_yaml.Region := "auto"; config_yaml.Bucket := "";
       config_yaml.AccessKey := ""; config_yaml.SecretKey := "" |} /\
  config_yaml.Validate config_yaml.New = Some ErrEndpointRequired.
Proof.
  repeat apply conj; reflexivity.
Qed.

(** * Further properties of the code *)

(** ** Keys under the bucket-fixed strategy *)

Lemma append_assoc3 (a b c : string) : (a ++ b) ++ c = a ++ (b ++ c).
Proof. induction a as [|x a IH]; simpl; [reflexivity | now rewrite IH]. Qed.

Lemma has_prefix_append (a b : string) : has_prefix (a ++ b) a = true.
Proof.
  induction a as [|x a IH]; simpl; [reflexivity|].
  now rewrite Ascii.eqb_refl, IH.
Qed.

Lemma occurs_cons_false (c a : ascii) (s : string) :
  occurs c (String a s) = false -> Ascii.eqb c a = false /\ occurs c s = false.
Proof. cbn [occurs]. apply orb_false_elim. Qed.

Lemma joined_inj (p p' k k' : string) :
  occurs "/" p = false -> occurs "/" p' = false ->
  p ++ "/" ++ k = p' ++ "/" ++ k' -> p = p' /\ k = k'.
Proof.
  revert p'. induction p as [|a p IH]; intros [|a' p'] Hp Hp' Heq;
    cbn [append] in Heq.
  - inversion Heq. now split.
  - inversion Heq; subst a'.
    apply occurs_cons_false in Hp' as [Ha _].
    now rewrite Ascii.eqb_refl in Ha.
  - inversion Heq; subst a.
    apply occurs_cons_false in Hp as [Ha _].
    now rewrite Ascii.eqb_refl in Ha.
  - inversion Heq; subst a'.
    apply occurs_cons_false in Hp as [_ Hp].
    apply occurs_cons_false in Hp' as [_ Hp'].
    destruct (IH p' Hp Hp' H1) as [-> ->]. now split.
Qed.

Lemma filter_misses (p p' k : string) :
  occurs "/" p = false -> occurs "/" p' = false -> p <> p' ->
  has_prefix (p' ++ "/" ++ k) (p ++ "/") = false.
Proof.
  revert p'. induction p as [|a p IH]; intros [|a' p'] Hp Hp' Hne;
    cbn [append has_prefix].
  - now contradiction Hne.
  - apply occurs_cons_false in Hp' as [Ha' _]. now rewrite Ha'.
  - apply occurs_cons_false in Hp as [Ha _].
    rewrite Ascii.eqb_sym in Ha. now rewrite Ha.
  - apply occurs_cons_false in Hp as [_ Hp].
    apply occurs_cons_false in Hp' as [_ Hp'].
    destruct (Ascii.eqb a a') eqn:Haa; [|reflexivity].
    apply Ascii.eqb_eq in Haa. subst a'. cbn [andb].
    apply IH; try assumption.
    intro Heq. apply Hne. now rewrite Heq.
Qed.

(** X1. Under prefixes that hold no "/", the resolved key determines
    the (prefix, key) pair: two pairs with the same resolved key are the
    same pair, in [src/s3.go] and in [src/unnamed/part_000]. *)
Theorem prefixedKey_injective_slash_free (prefix prefix' key key' : string) :
  occurs "/" prefix = false -> occurs "/" prefix' = false ->
  (s3.prefixedKey prefix key = s3.prefixedKey prefix' key' ->
   prefix = prefix' /\ key = key') /\
  (s3_part_000.prefixedKey prefix key = s3_part_000.prefixedKey prefix' key' ->
   prefix = prefix' /\ key = key').
Proof.
  intros Hp Hp'.
  rewrite ?s3_prefixedKey_eq, ?part_000_prefixedKey_eq.
  split; now apply joined_inj.
Qed.

Lemma prefixedKey_injective_slash_free_witness :
  occurs "/" "logs" = false /\ occurs "/" "logs" = false /\
  (s3.prefixedKey "logs" "a/b.txt" = s3.prefixedKey "logs" "a/b.txt" ->
   "logs" = "logs" /\ "a/b.txt" = "a/b.txt").
Proof.
  split; [reflexivity|]. split; [reflexivity|].
  exact (proj1 (prefixedKey_injective_slash_free "logs" "logs" "a/b.txt"
                  "a/b.txt" eq_refl eq_refl)).
Defined.

(** X2. A "/" inside the prefix makes pairs collide: the pair
    (p + "/" + q, k) and the pair (p, q + "/" + k) resolve to the same
    key, and GetObject on either sends the library the same request. *)
Theorem prefixedKey_reassociates (be : backend.Backend) (p q k : string) :
  s3.prefixedKey (p ++ "/" ++ q) k = s3.prefixedKey p (q ++ "/" ++ k) /\
  s3_part_000.prefixedKey (p ++ "/" ++ q) k =
    s3_part_000.prefixedKey p (q ++ "/" ++ k) /\
  (forall e ctx r,
      issues (s3.GetObject be e ctx (p ++ "/" ++ q) k) r <->
      issues (s3.GetObject be e ctx p (q ++ "/" ++ k)) r) /\
  (forall e ctx r,
      issues (s3_part_000.GetObject be e ctx (p ++ "/" ++ q) k) r <->
      issues (s3_part_000.GetObject be e ctx p (q ++ "/" ++ k)) r).
Proof.
  assert (H1 : s3.prefixedKey (p ++ "/" ++ q) k =
               s3.prefixedKey p (q ++ "/" ++ k)).
  { rewrite !s3_prefixedKey_eq. now rewrite append_assoc3. }
  assert (H2 : s3_part_000.prefixedKey (p ++ "/" ++ q) k =
               s3_part_000.prefixedKey p (q ++ "/" ++ k)).
  { rewrite !part_000_prefixedKey_eq. now rewrite append_assoc3. }
  repeat apply conj; try assumption.
  - intros e ctx r. unfold s3.GetObject. cbv zeta. now rewrite H1.
  - intros e ctx r. unfold s3_part_000.GetObject. cbv zeta. now rewrite H2.
Qed.

(** X3. The filter ListObjects builds for a prefix is a prefix of every
    key the object operations resolve under that prefix: a listing
    covers all that was put under it. *)
Theorem list_filter_covers_prefix (prefix key : string) :
  has_prefix (s3.prefixedKey prefix key) (s3.prefixedKey prefix "") = true /\
  has_prefix (s3_part_000.prefixedKey prefix key)
    (s3_part_000.prefixedKey prefix "") = true.
Proof.
  rewrite ?s3_prefixedKey_eq, ?part_000_prefixedKey_eq.
  replace (prefix ++ "/" ++ key) with ((prefix ++ "/" ++ "") ++ key).
  - split; apply has_prefix_append.
  - rewrite append_assoc3. reflexivity.
Qed.

(** X4. With prefixes that hold no "/", the filter ListObjects builds
    for one prefix matches no key resolved under a different one: the
    separator keeps "a" from listing the objects of "ab". *)
Theorem list_filter_misses_other_prefix (prefix prefix' key : string) :
  occurs "/" prefix = false -> occurs "/" prefix' = false ->
  prefix <> prefix' ->
  has_prefix (s3.prefixedKey prefix' key) (s3.prefixedKey prefix "") = false /\
  has_prefix (s3_part_000.prefixedKey prefix' key)
    (s3_part_000.prefixedKey prefix "") = false.
Proof.
  intros Hp Hp' Hne.
  rewrite ?s3_prefixedKey_eq, ?part_000_prefixedKey_eq.
  split; now apply filter_misses.
Qed.

Lemma list_filter_misses_other_prefix_witness :
  occurs "/" "a" = false /\ occurs "/" "ab" = false /\ "a" <> "ab" /\
  has_prefix (s3.prefixedKey "ab" "x.txt") (s3.prefixedKey "a" "") = false.
Proof.
  assert (Hne : "a" <> "ab") by discriminate.
  split; [reflexivity|]. split; [reflexivity|]. split; [exact Hne|].
  exact (proj1 (@list_filter_misses_other_prefix "a" "ab" "x.txt"
                  eq_refl eq_refl Hne)).
Defined.

(** ** Flags *)

Section FlagSets.

Context {C : Type}.
Implicit Types (f g : pflag.FlagSet C) (flag : pflag.Flag C).

Lemma Lookup_app f g name :
  pflag.Lookup (f ++ g)%list name =
    match pflag.Lookup f name with
    | Some flag => Some flag
    | None => pflag.Lookup g name
    end.
Proof.
  induction f as [|flag f IH]; simpl; [reflexivity|].
  now destruct (pflag.Name flag =? name).
Qed.

Lemma defined_snoc f flag name :
  defined (f ++ [flag])%list name = defined f name || (pflag.Name flag =? name).
Proof.
  unfold defined. rewrite Lookup_app.
  destruct (pflag.Lookup f name); [reflexivity|].
  simpl. now destruct (pflag.Name flag =? name).
Qed.

Lemma undefined_in_defined f names name :
  undefined_in f names -> In name names -> defined f name = false.
Proof. intros H Hin. unfold defined. now rewrite (H name Hin). Qed.

Lemma BoolVar_defined (p : bool -> C -> C) name value usage
    (st : pflag.FlagSet C * C) :
  pflag.BoolVar p name value usage st =
    if defined (fst st) name then None
    else Some ((fst st ++ [ {| pflag.Name := name; pflag.Usage := usage;
                               pflag.DefValue := pflag.FormatBool value;
                               pflag.Value := pflag.boolVar p;
                               pflag.Annotations := [] |} ])%list,
               p value (snd st)).
Proof.
  unfold pflag.BoolVar, pflag.AddFlag, defined. simpl.
  now destruct (pflag.Lookup (fst st) name).
Qed.

Lemma StringVar_defined (p : string -> C -> C) name value usage
    (st : pflag.FlagSet C * C) :
  pflag.StringVar p name value usage st =
    if defined (fst st) name then None
    else Some ((fst st ++ [ {| pflag.Name := name; pflag.Usage := usage;
                               pflag.DefValue := value;
                               pflag.Value := pflag.stringVar p;
                               pflag.Annotations := [] |} ])%list,
               p value (snd st)).
Proof.
  unfold pflag.StringVar, pflag.AddFlag, defined. simpl.
  now destruct (pflag.Lookup (fst st) name).
Qed.

(** Annotating leaves the names as they are. *)
Lemma Lookup_annotated f name key values n :
  pflag.Lookup
    (map (fun flag =>
            if pflag.Name flag =? name
            then pflag.annotate key values flag else flag) f) n =
    option_map
      (fun flag =>
         if pflag.Name flag =? name
         then pflag.annotate key values flag else flag)
      (pflag.Lookup f n).
Proof.
  induction f as [|flag f IH]; simpl; [reflexivity|].
  destruct (pflag.Name flag =? name) eqn:Hn;
    [change (pflag.Name (pflag.annotate key values flag))
       with (pflag.Name flag)|];
    destruct (pflag.Name flag =? n); simpl; rewrite ?Hn; auto.
Qed.

Lemma Lookup_Name f n flag :
  pflag.Lookup f n = Some flag -> pflag.Name flag = n.
Proof.
  induction f as [|x f IH]; simpl; [discriminate|].
  destruct (pflag.Name x =? n) eqn:Hn; [|exact IH].
  intro H. inversion H; subst. now apply String.eqb_eq.
Qed.

Lemma annotation_annotate flag key values :
  pflag.annotation (pflag.annotate key values flag) key = Some values.
Proof.
  unfold pflag.annotation, pflag.annotate. simpl.
  now rewrite String.eqb_refl.
Qed.

(** What [MarkFlagRequired] does, on the three observations made of a
    flag set. *)
Lemma MarkFlagRequired_error (cmd : cobra.Command C) name :
  snd (cobra.MarkFlagRequired cmd name) =
    if defined (cobra.Flags cmd) name then None
    else Some ("no such flag -" ++ name).
Proof.
  unfold cobra.MarkFlagRequired, pflag.SetAnnotation, defined.
  now destruct (pflag.Lookup (cobra.Flags cmd) name).
Qed.

Lemma MarkFlagRequired_defined (cmd : cobra.Command C) name n :
  defined (cobra.Flags (fst (cobra.MarkFlagRequired cmd name))) n =
    defined (cobra.Flags cmd) n.
Proof.
  unfold cobra.MarkFlagRequired, pflag.SetAnnotation.
  destruct (pflag.Lookup (cobra.Flags cmd) name); simpl; [|reflexivity].
  unfold defined. rewrite Lookup_annotated.
  now destruct (pflag.Lookup (cobra.Flags cmd) n).
Qed.

Lemma MarkFlagRequired_required (cmd : cobra.Command C) name n :
  required (cobra.Flags (fst (cobra.MarkFlagRequired cmd name))) n =
    if name =? n then defined (cobra.Flags cmd) n
    else required (cobra.Flags cmd) n.
Proof.
  unfold cobra.MarkFlagRequired, pflag.SetAnnotation.
  destruct (pflag.Lookup (cobra.Flags cmd) name) as [hit|] eqn:Hname; simpl.
  - unfold required, defined. rewrite Lookup_annotated.
    destruct (pflag.Lookup (cobra.Flags cmd) n) as [flag|] eqn:Hn; simpl.
    + apply Lookup_Name in Hn. rewrite Hn, (String.eqb_sym n name).
      destruct (name =? n); [|reflexivity].
      now rewrite annotation_annotate.
    + now destruct (name =? n).
  - destruct (name =? n) eqn:Heq; [|reflexivity].
    apply String.eqb_eq in Heq. subst n.
    unfold required, defined. now rewrite Hname.
Qed.

End FlagSets.

Ltac register H :=
  first [ rewrite BoolVar_defined | rewrite StringVar_defined ];
  cbn [fst snd];
  rewrite ?defined_snoc;
  rewrite (@undefined_in_defined _ _ _ _ H) by (simpl; tauto);
  cbn [fst snd pflag.Name String.eqb Ascii.eqb Bool.eqb orb and_then].

(** X5. [RootPersistentFlags] of the revision with [Disabled], on a
    flag set that defines none of its seven names: it does not panic,
    appends the seven flags in the order of the source, each with the
    default that [New] gives its field, and leaves the receiver equal
    to [New()] whatever it held before. *)
Theorem RootPersistentFlags_defaults (c : config.Config)
    (flags : pflag.FlagSet config.Config) :
  undefined_in flags config_flag_names ->
  exists added,
    config.RootPersistentFlags c flags =
      Some ((flags ++ added)%list, config.New) /\
    map (@pflag.Name _) added = config_flag_names /\
    map (@pflag.DefValue _) added =
      [pflag.FormatBool (config.Disabled config.New);
       config.Endpoint config.New;
       pflag.FormatBool (config.Secure config.New);
       config.Region config.New; config.Bucket config.New;
       config.AccessKey config.New; config.SecretKey config.New].
Proof.
  intro H. unfold config.RootPersistentFlags.
  do 7 register H.
  eexists. split; [|split].
  - repeat rewrite <- app_assoc. cbn [app]. reflexivity.
  - reflexivity.
  - reflexivity.
Qed.

Lemma RootPersistentFlags_defaults_witness :
  undefined_in (@nil (pflag.Flag config.Config)) config_flag_names /\
  exists added,
    config.RootPersistentFlags sample_config_complete [] =
      Some (([] ++ added)%list, config.New) /\
    map (@pflag.Name _) added = config_flag_names /\
    map (@pflag.DefValue _) added =
      ["false"; ""; "true"; "auto"; ""; ""; ""].
Proof.
  assert (H : undefined_in (@nil (pflag.Flag config.Config))
                config_flag_names) by (intros n _; reflexivity).
  split; [exact H|].
  exact (RootPersistentFlags_defaults sample_config_complete H).
Defined.

(** X6. [RootPersistentFlags] of the revision without [Disabled], on a
    flag set that defines none of its six names: no panic, the six
    flags appended in the order of the source with the defaults of
    [New], and the receiver left equal to [New()]. *)
Theorem RootPersistentFlags_yaml_defaults (c : config_yaml.Config)
    (flags : pflag.FlagSet config_yaml.Config) :
  undefined_in flags config_yaml_flag_names ->
  exists added,
    config_yaml.RootPersistentFlags c flags =
      Some ((flags ++ added)%list, config_yaml.New) /\
    map (@pflag.Name _) added = config_yaml_flag_names /\
    map (@pflag.DefValue _) added =
      [config_yaml.Endpoint config_yaml.New;
       pflag.FormatBool (config_yaml.Secure config_yaml.New);
       config_yaml.Region config_yaml.New;
       config_yaml.Bucket config_yaml.New;
       config_yaml.AccessKey config_yaml.New;
       config_yaml.SecretKey config_yaml.New].
Proof.
  intro H. unfold config_yaml.RootPersistentFlags.
  do 6 register H.
  eexists. split; [|split].
  - repeat rewrite <- app_assoc. cbn [app]. reflexivity.
  - reflexivity.
  - reflexivity.
Qed.

Lemma RootPersistentFlags_yaml_defaults_witness :
  undefined_in (@nil (pflag.Flag config_yaml.Config))
    config_yaml_flag_names /\
  exists added,
    config_yaml.RootPersistentFlags sample_yaml_config [] =
      Some (([] ++ added)%list, config_yaml.New) /\
    map (@pflag.Name _) added = config_yaml_flag_names /\
    map (@pflag.DefValue _) added = [""; "true"; "auto"; ""; ""; ""].
Proof.
  assert (H : undefined_in (@nil (pflag.Flag config_yaml.Config))
                config_yaml_flag_names) by (intros n _; reflexivity).
  split; [exact H|].
  exact (RootPersistentFlags_yaml_defaults sample_yaml_config H).
Defined.

Ltac register_or_panic flags :=
  first [ rewrite BoolVar_defined | rewrite StringVar_defined ];
  cbn [fst snd];
  rewrite ?defined_snoc;
  cbn [pflag.Name String.eqb Ascii.eqb Bool.eqb];
  match goal with
  | |- context [defined flags ?n] => destruct (defined flags n) eqn:?
  end;
  cbn [orb and_then]; [reflexivity|].

(** X7. A flag set that already defines one of the names makes
    [RootPersistentFlags] panic, in either revision; so it cannot be run
    a second time on the same flag set. *)
Theorem RootPersistentFlags_redefinition :
  (forall c (flags : pflag.FlagSet config.Config) n,
      In n config_flag_names -> defined flags n = true ->
      config.RootPersistentFlags c flags = None) /\
  (forall c (flags : pflag.FlagSet config_yaml.Config) n,
      In n config_yaml_flag_names -> defined flags n = true ->
      config_yaml.RootPersistentFlags c flags = None).
Proof.
  split; intros c flags n Hin Hdef.
  - unfold config.RootPersistentFlags.
    do 6 register_or_panic flags.
    rewrite StringVar_defined. cbn [fst snd].
    rewrite ?defined_snoc.
    cbn [pflag.Name String.eqb Ascii.eqb Bool.eqb].
    destruct (defined flags "s3-secret-key") eqn:?; [reflexivity|].
    simpl in Hin.
    repeat (destruct Hin as [<- | Hin]; [congruence|]).
    contradiction.
  - unfold config_yaml.RootPersistentFlags.
    do 5 register_or_panic flags.
    rewrite StringVar_defined. cbn [fst snd].
    rewrite ?defined_snoc.
    cbn [pflag.Name String.eqb Ascii.eqb Bool.eqb].
    destruct (defined flags "s3-secret-key") eqn:?; [reflexivity|].
    simpl in Hin.
    repeat (destruct Hin as [<- | Hin]; [congruence|]).
    contradiction.
Qed.

Lemma RootPersistentFlags_redefinition_witness :
  In "s3-bucket" config_flag_names /\
  (exists once c',
      config.RootPersistentFlags sample_config_complete [] =
        Some (once, c') /\
      defined once "s3-bucket" = true /\
      config.RootPersistentFlags c' once = None).
Proof.
  assert (Hin : In "s3-bucket" config_flag_names) by (simpl; tauto).
  split; [exact Hin|].
  eexists. eexists. split; [reflexivity|].
  split; [reflexivity|].
  apply (proj1 RootPersistentFlags_redefinition) with (n := "s3-bucket");
    [exact Hin | reflexivity].
Defined.

Ltac registered H Hreg :=
  unfold config.RootPersistentFlags, config_yaml.RootPersistentFlags in Hreg;
  revert Hreg;
  repeat register H;
  intro Hreg; inversion Hreg; subst; clear Hreg.

Ltac look_up H :=
  unfold write_string, write_bool, defined, required;
  rewrite !Lookup_app;
  rewrite (H _) by (simpl; tauto);
  reflexivity.

(** X8. Each flag writes to the field of its own name.  After
    [RootPersistentFlags] of the revision with [Disabled] has run on a
    flag set without its names, a value written through a flag reaches
    exactly the field the source gave the address of: s3-disabled
    Disabled, s3-endpoint Endpoint, s3-secure Secure, s3-region Region,
    s3-bucket Bucket, s3-access-key AccessKey, s3-secret-key
    SecretKey. *)
Theorem flags_write_their_fields (c c' : config.Config)
    (flags flags' : pflag.FlagSet config.Config) :
  undefined_in flags config_flag_names ->
  config.RootPersistentFlags c flags = Some (flags', c') ->
  forall (b : bool) (v : string) (c0 : config.Config),
    write_bool flags' "s3-disabled" b c0 =
      Some {| config.Disabled := b; config.Endpoint := config.Endpoint c0;
              config.Secure := config.Secure c0;
              config.Region := config.Region c0;
              config.Bucket := config.Bucket c0;
              config.AccessKey := config.AccessKey c0;
              config.SecretKey := config.SecretKey c0 |} /\
    write_string flags' "s3-endpoint" v c0 =
      Some {| config.Disabled := config.Disabled c0; config.Endpoint := v;
              config.Secure := config.Secure c0;
              config.Region := config.Region c0;
              config.Bucket := config.Bucket c0;
              config.AccessKey := config.AccessKey c0;
              config.SecretKey := config.SecretKey c0 |} /\
    write_bool flags' "s3-secure" b c0 =
      Some {| config.Disabled := config.Disabled c0;
              config.Endpoint := config.Endpoint c0; config.Secure := b;
              config.Region := config.Region c0;
              config.Bucket := config.Bucket c0;
              config.AccessKey := config.AccessKey c0;
              config.SecretKey := config.SecretKey c0 |} /\
    write_string flags' "s3-region" v c0 =
      Some {| config.Disabled := config.Disabled c0;
              config.Endpoint := config.Endpoint c0;
              config.Secure := config.Secure c0; config.Region := v;
              config.Bucket := config.Bucket c0;
              config.AccessKey := config.AccessKey c0;
              config.SecretKey := config.SecretKey c0 |} /\
    write_string flags' "s3-bucket" v c0 =
      Some {| config.Disabled := config.Disabled c0;
              config.Endpoint := config.Endpoint c0;
              config.Secure := config.Secure c0;
              config.Region := config.Region c0; config.Bucket := v;
              config.AccessKey := config.AccessKey c0;
              config.SecretKey := config.SecretKey c0 |} /\
    write_string flags' "s3-access-key" v c0 =
      Some {| config.Disabled := config.Disabled c0;
              config.Endpoint := config.Endpoint c0;
              config.Secure := config.Secure c0;
              config.Region := config.Region c0;
              config.Bucket := config.Bucket c0; config.AccessKey := v;
              config.SecretKey := config.SecretKey c0 |} /\
    write_string flags' "s3-secret-key" v c0 =
      Some {| config.Disabled := config.Disabled c0;
              config.Endpoint := config.Endpoint c0;
              config.Secure := config.Secure c0;
              config.Region := config.Region c0;
              config.Bucket := config.Bucket c0;
              config.AccessKey := config.AccessKey c0;
              config.SecretKey := v |}.
Proof.
  intros H Hreg b v c0.
  registered H Hreg.
  repeat apply conj; look_up H.
Qed.

Lemma flags_write_their_fields_witness :
  undefined_in (@nil (pflag.Flag config.Config)) config_flag_names /\
  exists flags' c',
    config.RootPersistentFlags sample_config_complete [] =
      Some (flags', c') /\
    write_string flags' "s3-bucket" "releases" sample_config_complete =
      Some {| config.Disabled := false; config.Endpoint := "play.min.io";
              config.Secure := true; config.Region := "auto";
              config.Bucket := "releases"; config.AccessKey := "AKIA";
              config.SecretKey := "secret" |}.
Proof.
  assert (H : undefined_in (@nil (pflag.Flag config.Config))
                config_flag_names) by (intros n _; reflexivity).
  split; [exact H|].
  eexists. eexists. split; [reflexivity|].
  exact (proj1 (proj2 (proj2 (proj2 (proj2
           (@flags_write_their_fields sample_config_complete _ [] _ H
              eq_refl true "releases" sample_config_complete)))))).
Defined.

(** X9. The same for the revision without [Disabled]: its six flags
    write to Endpoint, Secure, Region, Bucket, AccessKey and SecretKey
    respectively, and to nothing else. *)
Theorem yaml_flags_write_their_fields (c c' : config_yaml.Config)
    (flags flags' : pflag.FlagSet config_yaml.Config) :
  undefined_in flags config_yaml_flag_names ->
  config_yaml.RootPersistentFlags c flags = Some (flags', c') ->
  forall (b : bool) (v : string) (c0 : config_yaml.Config),
    write_string flags' "s3-endpoint" v c0 =
      Some {| config_yaml.Endpoint := v;
              config_yaml.Secure := config_yaml.Secure c0;
              config_yaml.Region := config_yaml.Region c0;
              config_yaml.Bucket := config_yaml.Bucket c0;
              config_yaml.AccessKey := config_yaml.AccessKey c0;
              config_yaml.SecretKey := config_yaml.SecretKey c0 |} /\
    write_bool flags' "s3-secure" b c0 =
      Some {| config_yaml.Endpoint := config_yaml.Endpoint c0;
              config_yaml.Secure := b;
              config_yaml.Region := config_yaml.Region c0;
              config_yaml.Bucket := config_yaml.Bucket c0;
              config_yaml.AccessKey := config_yaml.AccessKey c0;
              config_yaml.SecretKey := config_yaml.SecretKey c0 |} /\
    write_string flags' "s3-region" v c0 =
      Some {| config_yaml.Endpoint := config_yaml.Endpoint c0;
              config_yaml.Secure := config_yaml.Secure c0;
              config_yaml.Region := v;
              config_yaml.Bucket := config_yaml.Bucket c0;
              config_yaml.AccessKey := config_yaml.AccessKey c0;
              config_yaml.SecretKey := config_yaml.SecretKey c0 |} /\
    write_string flags' "s3-bucket" v c0 =
      Some {| config_yaml.Endpoint := config_yaml.Endpoint c0;
              config_yaml.Secure := config_yaml.Secure c0;
              config_yaml.Region := config_yaml.Region c0;
              config_yaml.Bucket := v;
              config_yaml.AccessKey := config_yaml.AccessKey c0;
              config_yaml.SecretKey := config_yaml.SecretKey c0 |} /\
    write_string flags' "s3-access-key" v c0 =
      Some {| config_yaml.Endpoint := config_yaml.Endpoint c0;
              config_yaml.Secure := config_yaml.Secure c0;
              config_yaml.Region := config_yaml.Region c0;
              config_yaml.Bucket := config_yaml.Bucket c0;
              config_yaml.AccessKey := v;
              config_yaml.SecretKey := config_yaml.SecretKey c0 |} /\
    write_string flags' "s3-secret-key" v c0 =
      Some {| config_yaml.Endpoint := config_yaml.Endpoint c0;
              config_yaml.Secure := config_yaml.Secure c0;
              config_yaml.Region := config_yaml.Region c0;
              config_yaml.Bucket := config_yaml.Bucket c0;
              config_yaml.AccessKey := config_yaml.AccessKey c0;
              config_yaml.SecretKey := v |}.
Proof.
  intros H Hreg b v c0.
  registered H Hreg.
  repeat apply conj; look_up H.
Qed.

Lemma yaml_flags_write_their_fields_witness :
  undefined_in (@nil (pflag.Flag config_yaml.Config))
    config_yaml_flag_names /\
  exists flags' c',
    config_yaml.RootPersistentFlags sample_yaml_config [] =
      Some (flags', c') /\
    write_string flags' "s3-endpoint" "s3.example.org" sample_yaml_config =
      Some {| config_yaml.Endpoint := "s3.example.org";
              config_yaml.Secure := false;
              config_yaml.Region := "eu-west-1";
              config_yaml.Bucket := "artifacts";
              config_yaml.AccessKey := "AKIA";
              config_yaml.SecretKey := "secret" |}.
Proof.
  assert (H : undefined_in (@nil (pflag.Flag config_yaml.Config))
                config_yaml_flag_names) by (intros n _; reflexivity).
  split; [exact H|].
  eexists. eexists. split; [reflexivity|].
  exact (proj1 (@yaml_flags_write_their_fields sample_yaml_config _ [] _ H
                  eq_refl true "s3.example.org" sample_yaml_config)).
Defined.

Ltac mark cmd name cmd' :=
  let E := fresh "E" in
  let D := fresh "D" in
  let R := fresh "R" in
  pose proof (MarkFlagRequired_error cmd name) as E;
  pose proof (fun n => MarkFlagRequired_defined cmd name n) as D;
  pose proof (fun n => MarkFlagRequired_required cmd name n) as R;
  destruct (cobra.MarkFlagRequired cmd name) as [cmd' ?err];
  cbn [fst snd] in E, D, R; rewrite E; clear E.

Lemma required_undefined {C : Type} (f : pflag.FlagSet C) (n : string) :
  defined f n = false -> required f n = false.
Proof.
  unfold defined, required.
  now destruct (pflag.Lookup f n).
Qed.

Ltac name_cases n :=
  repeat match goal with
    | |- context [String.eqb ?m n] =>
        let Heq := fresh "Heq" in
        destruct (String.eqb m n) eqn:Heq;
        [apply String.eqb_eq in Heq; subst n|]
    end;
  cbn [String.eqb Ascii.eqb Bool.eqb orb];
  try match goal with
    | H : defined ?f ?m = false |- context [required ?f ?m] =>
        rewrite (required_undefined f m H)
    end;
  try reflexivity; try congruence.

(** All that [GlobalRequiredFlags] does: it marks the names of
    endpoint, bucket, access key and secret key, in this order, up to
    the first one that is not defined, whose error it returns. *)
Lemma GlobalRequiredFlags_effect (c : config_yaml.Config)
    (cmd : cobra.Command config_yaml.Config) :
  snd (config_yaml.GlobalRequiredFlags c cmd) =
    first_undefined (cobra.Flags cmd) required_flag_names /\
  (forall n,
      defined (cobra.Flags (fst (config_yaml.GlobalRequiredFlags c cmd))) n =
        defined (cobra.Flags cmd) n) /\
  (forall n,
      required (cobra.Flags (fst (config_yaml.GlobalRequiredFlags c cmd))) n =
        if existsb (fun m => m =? n)
             (while_defined (cobra.Flags cmd) required_flag_names)
        then true
        else required (cobra.Flags cmd) n).
Proof.
  unfold config_yaml.GlobalRequiredFlags, first_undefined,
    required_flag_names.
  cbn [find while_defined].
  mark cmd "s3-endpoint" cmd1.
  destruct (defined (cobra.Flags cmd) "s3-endpoint") eqn:H1;
    cbn [negb option_map fst snd existsb].
  2: { (split; [reflexivity | split]); intro n; rewrite ?D, ?R; name_cases n. }
  mark cmd1 "s3-bucket" cmd2. rewrite D.
  destruct (defined (cobra.Flags cmd) "s3-bucket") eqn:H2;
    cbn [negb option_map fst snd existsb].
  2: { (split; [reflexivity | split]); intro n; rewrite ?D0, ?R0, ?D, ?R; name_cases n. }
  mark cmd2 "s3-access-key" cmd3. rewrite D0, D.
  destruct (defined (cobra.Flags cmd) "s3-access-key") eqn:H3;
    cbn [negb option_map fst snd existsb].
  2: { (split; [reflexivity | split]); intro n;
       rewrite ?D1, ?R1, ?D0, ?R0, ?D, ?R; name_cases n. }
  mark cmd3 "s3-secret-key" cmd4. rewrite D1, D0, D.
  destruct (defined (cobra.Flags cmd) "s3-secret-key") eqn:H4;
    cbn [negb option_map fst snd existsb].
  2: { (split; [reflexivity | split]); intro n;
       rewrite ?D2, ?R2, ?D1, ?R1, ?D0, ?R0, ?D, ?R; name_cases n. }
  (split; [reflexivity | split]); intro n;
    rewrite ?D2, ?R2, ?D1, ?R1, ?D0, ?R0, ?D, ?R; name_cases n.
Qed.

Lemma while_defined_incl {C : Type} (f : pflag.FlagSet C) names n :
  In n (while_defined f names) -> In n names.
Proof.
  induction names as [|m names IH]; simpl; [tauto|].
  destruct (defined f m); simpl; [|tauto].
  intros [<- | H]; auto.
Qed.

Lemma while_defined_all {C : Type} (f : pflag.FlagSet C) names :
  (forall n, In n names -> defined f n = true) ->
  while_defined f names = names.
Proof.
  induction names as [|m names IH]; simpl; [reflexivity|].
  intro H. rewrite (H m) by now left.
  rewrite IH; [reflexivity|]. intros n Hn. apply H. now right.
Qed.

Lemma first_undefined_None {C : Type} (f : pflag.FlagSet C) names :
  first_undefined f names = None <->
  (forall n, In n names -> defined f n = true).
Proof.
  unfold first_undefined. induction names as [|m names IH]; simpl.
  - split; [intros _ n [] | reflexivity].
  - destruct (defined f m) eqn:Hm; simpl.
    + rewrite IH. split.
      * intros H n [<- | Hn]; auto.
      * intros H n Hn. apply H. now right.
    + split; [discriminate|].
      intro H. rewrite (H m) in Hm by now left. discriminate.
Qed.

(** X10. [GlobalRequiredFlags] returns the error of the first name, in
    the order s3-endpoint, s3-bucket, s3-access-key, s3-secret-key,
    that the command's flag set does not define, with cobra's text
    "no such flag -" and the name; it returns nil exactly when the four
    are defined. *)
Theorem GlobalRequiredFlags_first_undefined (c : config_yaml.Config)
    (cmd : cobra.Command config_yaml.Config) :
  snd (config_yaml.GlobalRequiredFlags c cmd) =
    first_undefined (cobra.Flags cmd) required_flag_names /\
  (snd (config_yaml.GlobalRequiredFlags c cmd) = None <->
   forall n, In n required_flag_names ->
             defined (cobra.Flags cmd) n = true).
Proof.
  destruct (GlobalRequiredFlags_effect c cmd) as [Herr _].
  split; [exact Herr|].
  rewrite Herr. apply first_undefined_None.
Qed.

(** X11. When the four names are defined, [GlobalRequiredFlags] returns
    nil and leaves each of the four flags with cobra's required mark. *)
Theorem GlobalRequiredFlags_marks (c : config_yaml.Config)
    (cmd : cobra.Command config_yaml.Config) :
  (forall n, In n required_flag_names ->
             defined (cobra.Flags cmd) n = true) ->
  snd (config_yaml.GlobalRequiredFlags c cmd) = None /\
  forall n, In n required_flag_names ->
    required (cobra.Flags (fst (config_yaml.GlobalRequiredFlags c cmd))) n =
      true.
Proof.
  intro Hall.
  destruct (GlobalRequiredFlags_effect c cmd) as [Herr [_ Hreq]].
  split.
  - rewrite Herr. now apply first_undefined_None.
  - intros n Hn. rewrite Hreq, (while_defined_all _ _ Hall).
    simpl in Hn.
    repeat (destruct Hn as [<- | Hn]; [reflexivity|]).
    contradiction.
Qed.

Lemma names_annotated {C : Type} (f : pflag.FlagSet C) name key values :
  map (@pflag.Name C)
    (map (fun flag =>
            if pflag.Name flag =? name
            then pflag.annotate key values flag else flag) f) =
    map (@pflag.Name C) f.
Proof.
  induction f as [|flag f IH]; simpl; [reflexivity|].
  rewrite IH. now destruct (pflag.Name flag =? name).
Qed.

Lemma MarkFlagRequired_names {C : Type} (cmd : cobra.Command C) name :
  map (@pflag.Name C) (cobra.Flags (fst (cobra.MarkFlagRequired cmd name))) =
    map (@pflag.Name C) (cobra.Flags cmd).
Proof.
  unfold cobra.MarkFlagRequired, pflag.SetAnnotation.
  destruct (pflag.Lookup (cobra.Flags cmd) name); simpl; [|reflexivity].
  apply names_annotated.
Qed.

Lemma GlobalRequiredFlags_names (c : config_yaml.Config)
    (cmd : cobra.Command config_yaml.Config) :
  map (@pflag.Name _)
    (cobra.Flags (fst (config_yaml.GlobalRequiredFlags c cmd))) =
    map (@pflag.Name _) (cobra.Flags cmd).
Proof.
  unfold config_yaml.GlobalRequiredFlags.
  pose proof (MarkFlagRequired_names cmd "s3-endpoint") as N1.
  destruct (cobra.MarkFlagRequired cmd "s3-endpoint") as [cmd1 [e1|]];
    cbn [fst] in *; [exact N1|].
  pose proof (MarkFlagRequired_names cmd1 "s3-bucket") as N2.
  destruct (cobra.MarkFlagRequired cmd1 "s3-bucket") as [cmd2 [e2|]];
    cbn [fst] in *; [congruence|].
  pose proof (MarkFlagRequired_names cmd2 "s3-access-key") as N3.
  destruct (cobra.MarkFlagRequired cmd2 "s3-access-key") as [cmd3 [e3|]];
    cbn [fst] in *; [congruence|].
  pose proof (MarkFlagRequired_names cmd3 "s3-secret-key") as N4.
  destruct (cobra.MarkFlagRequired cmd3 "s3-secret-key") as [cmd4 [e4|]];
    cbn [fst] in *; congruence.
Qed.

(** X12. [GlobalRequiredFlags] defines and removes no flag: the flags
    of the command keep their names and their order, and every name is
    defined after the call exactly when it was before.  It touches the
    required mark of no flag other than the four: s3-region and
    s3-secure (and s3-disabled) are never made required by it. *)
Theorem GlobalRequiredFlags_frame (c : config_yaml.Config)
    (cmd : cobra.Command config_yaml.Config) :
  map (@pflag.Name _)
    (cobra.Flags (fst (config_yaml.GlobalRequiredFlags c cmd))) =
    map (@pflag.Name _) (cobra.Flags cmd) /\
  (forall n,
      defined (cobra.Flags (fst (config_yaml.GlobalRequiredFlags c cmd))) n =
        defined (cobra.Flags cmd) n) /\
  (forall n,
      ~ In n required_flag_names ->
      required (cobra.Flags (fst (config_yaml.GlobalRequiredFlags c cmd))) n =
        required (cobra.Flags cmd) n).
Proof.
  destruct (GlobalRequiredFlags_effect c cmd) as [_ [Hdef Hreq]].
  split; [apply GlobalRequiredFlags_names|].
  split; [exact Hdef|].
  intros n Hn. rewrite Hreq.
  destruct (existsb _ _) eqn:Hex; [|reflexivity].
  apply existsb_exists in Hex as [m [Hm Heq]].
  apply String.eqb_eq in Heq. subst m.
  apply while_defined_incl in Hm. contradiction.
Qed.

(** X13. Nothing is undone on failure: when s3-endpoint is defined and
    s3-bucket is not, [GlobalRequiredFlags] returns "no such flag
    -s3-bucket", s3-endpoint is left marked as required and the marks
    of s3-access-key and s3-secret-key are as before. *)
Theorem GlobalRequiredFlags_no_rollback (c : config_yaml.Config)
    (cmd : cobra.Command config_yaml.Config) :
  defined (cobra.Flags cmd) "s3-endpoint" = true ->
  defined (cobra.Flags cmd) "s3-bucket" = false ->
  snd (config_yaml.GlobalRequiredFlags c cmd) =
    Some "no such flag -s3-bucket" /\
  required (cobra.Flags (fst (config_yaml.GlobalRequiredFlags c cmd)))
    "s3-endpoint" = true /\
  required (cobra.Flags (fst (config_yaml.GlobalRequiredFlags c cmd)))
    "s3-access-key" = required (cobra.Flags cmd) "s3-access-key" /\
  required (cobra.Flags (fst (config_yaml.GlobalRequiredFlags c cmd)))
    "s3-secret-key" = required (cobra.Flags cmd) "s3-secret-key".
Proof.
  intros He Hb.
  destruct (GlobalRequiredFlags_effect c cmd) as [Herr [_ Hreq]].
  rewrite Herr, !Hreq.
  unfold first_undefined, required_flag_names.
  cbn [find while_defined]. rewrite He, Hb.
  repeat apply conj; reflexivity.
Qed.

Lemma GlobalRequiredFlags_marks_witness :
  (forall n, In n required_flag_names ->
             defined sample_yaml_flags n = true) /\
  snd (config_yaml.GlobalRequiredFlags sample_yaml_config
         {| cobra.Flags := sample_yaml_flags |}) = None /\
  required
    (cobra.Flags
       (fst (config_yaml.GlobalRequiredFlags sample_yaml_config
               {| cobra.Flags := sample_yaml_flags |})))
    "s3-bucket" = true.
Proof.
  assert (Hall : forall n, In n required_flag_names ->
                           defined sample_yaml_flags n = true).
  { intros n Hn. simpl in Hn.
    repeat (destruct Hn as [<- | Hn]; [reflexivity|]).
    contradiction. }
  split; [exact Hall|].
  destruct (@GlobalRequiredFlags_marks sample_yaml_config
              {| cobra.Flags := sample_yaml_flags |} Hall) as [Hnil Hreq].
  split; [exact Hnil|].
  apply Hreq. simpl. tauto.
Defined.

Lemma GlobalRequiredFlags_frame_witness :
  ~ In "s3-region" required_flag_names /\
  required
    (cobra.Flags
       (fst (config_yaml.GlobalRequiredFlags sample_yaml_config
               {| cobra.Flags := sample_yaml_flags |})))
    "s3-region" = false /\
  defined
    (cobra.Flags
       (fst (config_yaml.GlobalRequiredFlags sample_yaml_config
               {| cobra.Flags := sample_yaml_flags |})))
    "s3-endpoint" = true /\
  map (@pflag.Name _)
    (cobra.Flags
       (fst (config_yaml.GlobalRequiredFlags sample_yaml_config
               {| cobra.Flags := sample_yaml_flags |}))) =
    config_yaml_flag_names.
Proof.
  assert (Hn : ~ In "s3-region" required_flag_names).
  { simpl. intros [H | [H | [H | [H | []]]]]; discriminate. }
  destruct (GlobalRequiredFlags_frame sample_yaml_config
              {| cobra.Flags := sample_yaml_flags |})
    as [Hnames [Hdef Hreq]].
  split; [exact Hn|].
  split; [exact (Hreq "s3-region" Hn)|].
  split; [exact (Hdef "s3-endpoint") | exact Hnames].
Defined.

Lemma GlobalRequiredFlags_no_rollback_witness :
  defined sample_endpoint_only_flags "s3-endpoint" = true /\
  defined sample_endpoint_only_flags "s3-bucket" = false /\
  snd (config_yaml.GlobalRequiredFlags sample_yaml_config
         {| cobra.Flags := sample_endpoint_only_flags |}) =
    Some "no such flag -s3-bucket" /\
  required
    (cobra.Flags
       (fst (config_yaml.GlobalRequiredFlags sample_yaml_config
               {| cobra.Flags := sample_endpoint_only_flags |})))
    "s3-endpoint" = true.
Proof.
  split; [reflexivity|]. split; [reflexivity|].
  destruct (@GlobalRequiredFlags_no_rollback sample_yaml_config
              {| cobra.Flags := sample_endpoint_only_flags |}
              eq_refl eq_refl) as [Herr [Hreq _]].
  split; [exact Herr | exact Hreq].
Defined.

(** X14. The two flag functions of the second revision fit: after
    [RootPersistentFlags] has run on a flag set without its names,
    [GlobalRequiredFlags] on a command with that flag set returns nil,
    marks s3-endpoint, s3-bucket, s3-access-key and s3-secret-key as
    required and leaves s3-region and s3-secure, which have defaults,
    optional. *)
Theorem registered_flags_can_be_required (c c' : config_yaml.Config)
    (flags flags' : pflag.FlagSet config_yaml.Config) :
  undefined_in flags config_yaml_flag_names ->
  config_yaml.RootPersistentFlags c flags = Some (flags', c') ->
  let cmd' :=
    fst (config_yaml.GlobalRequiredFlags c' {| cobra.Flags := flags' |}) in
  snd (config_yaml.GlobalRequiredFlags c' {| cobra.Flags := flags' |}) =
    None /\
  (forall n, In n required_flag_names ->
             required (cobra.Flags cmd') n = true) /\
  required (cobra.Flags cmd') "s3-region" = false /\
  required (cobra.Flags cmd') "s3-secure" = false.
Proof.
  intros H Hreg cmd'. subst cmd'.
  registered H Hreg.
  match goal with
  | |- context [config_yaml.GlobalRequiredFlags ?c0 ?cmd0] =>
      destruct (GlobalRequiredFlags_effect c0 cmd0) as [Herr [_ Hreq]];
      assert (Hall : forall n, In n required_flag_names ->
                               defined (cobra.Flags cmd0) n = true)
  end.
  { intros n Hn. simpl in Hn. cbn [cobra.Flags].
    repeat (destruct Hn as [<- | Hn]; [look_up H|]).
    contradiction. }
  rewrite Herr.
  repeat apply conj.
  - now apply first_undefined_None.
  - intros n Hn. rewrite Hreq, (while_defined_all _ _ Hall).
    simpl in Hn.
    repeat (destruct Hn as [<- | Hn]; [reflexivity|]).
    contradiction.
  - rewrite Hreq, (while_defined_all _ _ Hall).
    cbn [existsb required_flag_names String.eqb Ascii.eqb Bool.eqb orb
         cobra.Flags].
    look_up H.
  - rewrite Hreq, (while_defined_all _ _ Hall).
    cbn [existsb required_flag_names String.eqb Ascii.eqb Bool.eqb orb
         cobra.Flags].
    look_up H.
Qed.

Lemma registered_flags_can_be_required_witness :
  undefined_in (@nil (pflag.Flag config_yaml.Config))
    config_yaml_flag_names /\
  config_yaml.RootPersistentFlags sample_yaml_config [] =
    Some (sample_yaml_flags, config_yaml.New) /\
  snd (config_yaml.GlobalRequiredFlags config_yaml.New
         {| cobra.Flags := sample_yaml_flags |}) = None /\
  required
    (cobra.Flags
       (fst (config_yaml.GlobalRequiredFlags config_yaml.New
               {| cobra.Flags := sample_yaml_flags |})))
    "s3-secure" = false.
Proof.
  assert (H : undefined_in (@nil (pflag.Flag config_yaml.Config))
                config_yaml_flag_names) by (intros n _; reflexivity).
  assert (Hreg : config_yaml.RootPersistentFlags sample_yaml_config [] =
                   Some (sample_yaml_flags, config_yaml.New))
    by reflexivity.
  split; [exact H|]. split; [exact Hreg|].
  destruct (@registered_flags_can_be_required sample_yaml_config
              config_yaml.New [] sample_yaml_flags H Hreg)
    as [Hnil [_ [_ Hsec]]].
  split; [exact Hnil | exact Hsec].
Defined.

(** ** Validation, and what construction is then given *)

Lemma eqb_empty_neq (s : string) : (s =? "") = false -> s <> "".
Proof. apply String.eqb_neq. Qed.

Lemma Validate_sound_parts :
  (forall c : config.Config,
      config.Validate c = None ->
      config.Disabled c = true \/
      (config.Endpoint c <> "" /\ config.Region c <> "" /\
       config.Bucket c <> "" /\ config.AccessKey c <> "" /\
       config.SecretKey c <> "")) /\
  (forall c : config_yaml.Config,
      config_yaml.Validate c = None ->
      config_yaml.Endpoint c <> "" /\ config_yaml.Region c <> "" /\
      config_yaml.Bucket c <> "" /\ config_yaml.AccessKey c <> "" /\
      config_yaml.SecretKey c <> "").
Proof.
  split.
  - intros c. unfold config.Validate.
    destruct (config.Disabled c); [now left|]. cbn [negb].
    destruct (config.Endpoint c =? "") eqn:He; [discriminate|].
    destruct (config.Region c =? "") eqn:Hr; [discriminate|].
    destruct (config.Bucket c =? "") eqn:Hb; [discriminate|].
    destruct (config.AccessKey c =? "") eqn:Ha; [discriminate|].
    destruct (config.SecretKey c =? "") eqn:Hs; [discriminate|].
    intros _. right. repeat apply conj; now apply eqb_empty_neq.
  - intros c. unfold config_yaml.Validate.
    destruct (config_yaml.Endpoint c =? "") eqn:He; [discriminate|].
    destruct (config_yaml.Region c =? "") eqn:Hr; [discriminate|].
    destruct (config_yaml.Bucket c =? "") eqn:Hb; [discriminate|].
    destruct (config_yaml.AccessKey c =? "") eqn:Ha; [discriminate|].
    destruct (config_yaml.SecretKey c =? "") eqn:Hs; [discriminate|].
    intros _. repeat apply conj; now apply eqb_empty_neq.
Qed.

(** X15. What a nil from Validate guarantees, and what its errors are.
    In the revision with [Disabled]: the configuration is disabled, or
    endpoint, region, bucket, access key and secret key are all
    non-empty; in the other revision the five are non-empty.  In both,
    an error returned is one of the five sentinels. *)
Theorem Validate_sound :
  (forall c : config.Config,
      config.Validate c = None ->
      config.Disabled c = true \/
      (config.Endpoint c <> "" /\ config.Region c <> "" /\
       config.Bucket c <> "" /\ config.AccessKey c <> "" /\
       config.SecretKey c <> "")) /\
  (forall c : config_yaml.Config,
      config_yaml.Validate c = None ->
      config_yaml.Endpoint c <> "" /\ config_yaml.Region c <> "" /\
      config_yaml.Bucket c <> "" /\ config_yaml.AccessKey c <> "" /\
      config_yaml.SecretKey c <> "") /\
  (forall (c : config.Config) e,
      config.Validate c = Some e ->
      In e [ErrEndpointRequired; ErrRegionRequired; ErrBucketRequired;
            ErrAccessKeyRequired; ErrSecretKeyRequired]) /\
  (forall (c : config_yaml.Config) e,
      config_yaml.Validate c = Some e ->
      In e [ErrEndpointRequired; ErrRegionRequired; ErrBucketRequired;
            ErrAccessKeyRequired; ErrSecretKeyRequired]).
Proof.
  repeat apply conj.
  - exact (proj1 Validate_sound_parts).
  - exact (proj2 Validate_sound_parts).
  - intros c e. unfold config.Validate.
    destruct (config.Disabled c); [discriminate|]. cbn [negb].
    destruct (config.Endpoint c =? "");
      [intro H; inversion H; simpl; tauto|].
    destruct (config.Region c =? "");
      [intro H; inversion H; simpl; tauto|].
    destruct (config.Bucket c =? "");
      [intro H; inversion H; simpl; tauto|].
    destruct (config.AccessKey c =? "");
      [intro H; inversion H; simpl; tauto|].
    destruct (config.SecretKey c =? "");
      [intro H; inversion H; simpl; tauto | discriminate].
  - intros c e. unfold config_yaml.Validate.
    destruct (config_yaml.Endpoint c =? "");
      [intro H; inversion H; simpl; tauto|].
    destruct (config_yaml.Region c =? "");
      [intro H; inversion H; simpl; tauto|].
    destruct (config_yaml.Bucket c =? "");
      [intro H; inversion H; simpl; tauto|].
    destruct (config_yaml.AccessKey c =? "");
      [intro H; inversion H; simpl; tauto|].
    destruct (config_yaml.SecretKey c =? "");
      [intro H; inversion H; simpl; tauto | discriminate].
Qed.

Lemma Validate_sound_witness :
  config.Validate sample_config_complete = None /\
  (config.Disabled sample_config_complete = true \/
   (config.Endpoint sample_config_complete <> "" /\
    config.Region sample_config_complete <> "" /\
    config.Bucket sample_config_complete <> "" /\
    config.AccessKey sample_config_complete <> "" /\
    config.SecretKey sample_config_complete <> "")) /\
  config.Validate sample_config_no_bucket = Some ErrBucketRequired /\
  In ErrBucketRequired
    [ErrEndpointRequired; ErrRegionRequired; ErrBucketRequired;
     ErrAccessKeyRequired; ErrSecretKeyRequired].
Proof.
  split; [reflexivity|]. split.
  - exact (proj1 Validate_sound sample_config_complete eq_refl).
  - split; [reflexivity|].
    exact (proj1 (proj2 (proj2 Validate_sound)) sample_config_no_bucket
             ErrBucketRequired eq_refl).
Defined.

Lemma New_s3_request (be : backend.Backend) options logger :
  s3.Disabled options = false ->
  issues (s3.New be options logger)
    (minio.New_ (s3.Endpoint options)
       {| minio.Creds :=
            minio.NewStaticV4 (s3.AccessKey options) (s3.SecretKey options)
              "";
          minio.Secure := s3.Secure options;
          minio.Region := s3.Region options |}).
Proof.
  intros Hd t. unfold s3.New. rewrite Hd.
  unfold bind, Debug, log, backend.New, backend.call, ret. simpl.
  destruct (backend.New_answer be _); simpl;
    now rewrite requests_call, requests_log.
Qed.

Lemma New_000_request (be : backend.Backend) options logger :
  issues (s3_part_000.New be options logger)
    (minio.New_ (s3_part_000.Endpoint options)
       {| minio.Creds :=
            minio.NewStaticV4 (s3_part_000.AccessKey options)
              (s3_part_000.SecretKey options) "";
          minio.Secure := s3_part_000.Secure options;
          minio.Region := s3_part_000.Region options |}).
Proof.
  intros t. unfold s3_part_000.New.
  unfold bind, Debug, log, backend.New, backend.call, ret. simpl.
  destruct (backend.New_answer be _); simpl;
    now rewrite requests_call, requests_log.
Qed.

Lemma New_001_request (be : backend.Backend) options logger :
  issues (s3_part_001.New be options logger)
    (minio.New_ (s3_part_001.Endpoint options)
       {| minio.Creds :=
            minio.NewStaticV4 (s3_part_001.AccessKey options)
              (s3_part_001.SecretKey options) "";
          minio.Secure := s3_part_001.Secure options;
          minio.Region := s3_part_001.Region options |}).
Proof.
  intros t. unfold s3_part_001.New.
  unfold bind, Debug, log, backend.New, backend.call, ret. simpl.
  destruct (backend.New_answer be _); simpl;
    now rewrite requests_call, requests_log.
Qed.

(** X16. In every variant an enabled [New] sends the library exactly
    one request: [minio.New] on the endpoint of the options, with
    static V4 credentials made of the access key, the secret key and an
    empty session token, and with the secure flag and the region of the
    options.  The bucket, or the prefix, is not part of it. *)
Theorem New_builds_one_session (be : backend.Backend) :
  (forall options logger,
      s3.Disabled options = false ->
      issues (s3.New be options logger)
        (minio.New_ (s3.Endpoint options)
           {| minio.Creds :=
                {| minio.AccessKeyID := s3.AccessKey options;
                   minio.SecretAccessKey := s3.SecretKey options;
                   minio.SessionToken := "" |};
              minio.Secure := s3.Secure options;
              minio.Region := s3.Region options |})) /\
  (forall options logger,
      issues (s3_part_000.New be options logger)
        (minio.New_ (s3_part_000.Endpoint options)
           {| minio.Creds :=
                {| minio.AccessKeyID := s3_part_000.AccessKey options;
                   minio.SecretAccessKey := s3_part_000.SecretKey options;
                   minio.SessionToken := "" |};
              minio.Secure := s3_part_000.Secure options;
              minio.Region := s3_part_000.Region options |})) /\
  (forall options logger,
      issues (s3_part_001.New be options logger)
        (minio.New_ (s3_part_001.Endpoint options)
           {| minio.Creds :=
                {| minio.AccessKeyID := s3_part_001.AccessKey options;
                   minio.SecretAccessKey := s3_part_001.SecretKey options;
                   minio.SessionToken := "" |};
              minio.Secure := s3_part_001.Secure options;
              minio.Region := s3_part_001.Region options |})).
Proof.
  repeat apply conj.
  - intros options logger Hd. now apply New_s3_request.
  - intros options logger. apply New_000_request.
  - intros options logger. apply New_001_request.
Qed.

Lemma New_builds_one_session_witness :
  s3.Disabled sample_s3_options = false /\
  issues (s3.New sample_backend sample_s3_options sample_logger)
    (minio.New_ "play.min.io"
       {| minio.Creds :=
            {| minio.AccessKeyID := "AKIA";
               minio.SecretAccessKey := "secret";
               minio.SessionToken := "" |};
          minio.Secure := true;
          minio.Region := "auto" |}).
Proof.
  split; [reflexivity|].
  exact (proj1 (New_builds_one_session sample_backend) sample_s3_options
           sample_logger eq_refl).
Defined.

(** X17. From configuration to construction, enabled.  A configuration
    that Validate accepts and that is not disabled, turned into options
    by GenerateOptions, makes New ask the library for a session on a
    non-empty endpoint, with non-empty access key, secret key and
    region, all as the configuration holds them; likewise from the
    revision without [Disabled] to [src/unnamed/part_000]. *)
Theorem validated_config_builds_session (be : backend.Backend) :
  (forall (c : config.Config) logName logger,
      config.Validate c = None -> config.Disabled c = false ->
      issues (s3.New be (config.GenerateOptions c logName) logger)
        (minio.New_ (config.Endpoint c)
           {| minio.Creds :=
                {| minio.AccessKeyID := config.AccessKey c;
                   minio.SecretAccessKey := config.SecretKey c;
                   minio.SessionToken := "" |};
              minio.Secure := config.Secure c;
              minio.Region := config.Region c |}) /\
      config.Endpoint c <> "" /\ config.AccessKey c <> "" /\
      config.SecretKey c <> "" /\ config.Region c <> "" /\
      s3.Bucket (config.GenerateOptions c logName) <> "") /\
  (forall (c : config_yaml.Config) logName logger,
      config_yaml.Validate c = None ->
      issues
        (s3_part_000.New be (config_yaml.GenerateOptions c logName) logger)
        (minio.New_ (config_yaml.Endpoint c)
           {| minio.Creds :=
                {| minio.AccessKeyID := config_yaml.AccessKey c;
                   minio.SecretAccessKey := config_yaml.SecretKey c;
                   minio.SessionToken := "" |};
              minio.Secure := config_yaml.Secure c;
              minio.Region := config_yaml.Region c |}) /\
      config_yaml.Endpoint c <> "" /\ config_yaml.AccessKey c <> "" /\
      config_yaml.SecretKey c <> "" /\ config_yaml.Region c <> "" /\
      s3_part_000.Bucket (config_yaml.GenerateOptions c logName) <> "").
Proof.
  split.
  - intros c logName logger Hv Hd.
    destruct (proj1 Validate_sound_parts c Hv)
      as [Hd' | [He [Hr [Hb [Ha Hs]]]]]; [congruence|].
    split; [|now repeat apply conj].
    now apply (New_s3_request be (config.GenerateOptions c logName)).
  - intros c logName logger Hv.
    destruct (proj2 Validate_sound_parts c Hv) as [He [Hr [Hb [Ha Hs]]]].
    split; [|now repeat apply conj].
    apply (New_000_request be (config_yaml.GenerateOptions c logName)).
Qed.

Lemma validated_config_builds_session_witness :
  config.Validate sample_config_complete = None /\
  config.Disabled sample_config_complete = false /\
  issues
    (s3.New sample_backend
       (config.GenerateOptions sample_config_complete "storage")
       sample_logger)
    (minio.New_ "play.min.io"
       {| minio.Creds :=
            {| minio.AccessKeyID := "AKIA";
               minio.SecretAccessKey := "secret";
               minio.SessionToken := "" |};
          minio.Secure := true;
          minio.Region := "auto" |}).
Proof.
  split; [reflexivity|]. split; [reflexivity|].
  exact (proj1 (proj1 (validated_config_builds_session sample_backend)
                  sample_config_complete "storage" sample_logger
                  eq_refl eq_refl)).
Defined.

(** X18. From configuration to construction, disabled.  A disabled
    configuration passes Validate, and New on the options GenerateOptions
    makes of it returns no client and [ErrDisabled] without a request to
    the library, even with every other field empty. *)
Theorem disabled_config_builds_nothing (be : backend.Backend)
    (c : config.Config) (logName : string) (logger : zerolog.Logger) :
  config.Disabled c = true ->
  config.Validate c = None /\
  (forall t,
      fst (s3.New be (config.GenerateOptions c logName) logger t) =
        (None, Some ErrDisabled)) /\
  silent (s3.New be (config.GenerateOptions c logName) logger).
Proof.
  intro Hd. repeat apply conj.
  - unfold config.Validate. now rewrite Hd.
  - intro t. unfold s3.New. cbn [config.GenerateOptions s3.Disabled].
    now rewrite Hd.
  - intro t. unfold s3.New. cbn [config.GenerateOptions s3.Disabled].
    rewrite Hd. unfold bind, Warn, log, ret. simpl. apply requests_log.
Qed.

Lemma disabled_config_builds_nothing_witness :
  config.Disabled sample_config_disabled_empty = true /\
  config.Validate sample_config_disabled_empty = None /\
  fst (s3.New sample_backend
         (config.GenerateOptions sample_config_disabled_empty "storage")
         sample_logger []) = (None, Some ErrDisabled).
Proof.
  split; [reflexivity|].
  destruct (@disabled_config_builds_nothing sample_backend
              sample_config_disabled_empty "storage" sample_logger eq_refl)
    as [Hv [Hnew _]].
  split; [exact Hv | exact (Hnew [])].
Defined.

(** ** Outcomes of construction *)

Ltac run_New_goal :=
  unfold s3.New, s3_part_000.New, s3_part_001.New, backend.New,
    backend.call, bind, ret, Debug, Warn, log;
  simpl.

(** X19. The errors of construction.  An error returned by [New] comes
    with no client and is either [ErrDisabled] ([src/s3.go] only) or
    the library's error wrapped: its text is "failed to create s3
    client: " followed by the library's text, and [errors.Is] finds the
    library's error in it. *)
Theorem New_errors (be : backend.Backend) :
  (forall options logger t e,
      snd (fst (s3.New be options logger t)) = Some e ->
      fst (fst (s3.New be options logger t)) = None /\
      (e = ErrDisabled \/
       exists msg,
         e = wrapError ("failed to create s3 client: " ++ msg)
               (minioError msg) /\
         errors_Is e (minioError msg) = true)) /\
  (forall options logger t e,
      snd (fst (s3_part_000.New be options logger t)) = Some e ->
      fst (fst (s3_part_000.New be options logger t)) = None /\
      exists msg,
        e = wrapError ("failed to create s3 client: " ++ msg)
              (minioError msg) /\
        errors_Is e (minioError msg) = true) /\
  (forall options logger t e,
      snd (fst (s3_part_001.New be options logger t)) = Some e ->
      fst (fst (s3_part_001.New be options logger t)) = None /\
      exists msg,
        e = wrapError ("failed to create s3 client: " ++ msg)
              (minioError msg) /\
        errors_Is e (minioError msg) = true).
Proof.
  assert (Hwrap : forall msg,
             errors_Is (wrapError ("failed to create s3 client: " ++ msg)
                          (minioError msg)) (minioError msg) = true).
  { intro msg. simpl. now rewrite String.eqb_refl. }
  repeat apply conj; intros options logger t e.
  - unfold s3.New. destruct (s3.Disabled options).
    + simpl. intro H. inversion H. split; [reflexivity | now left].
    + run_New_goal.
      destruct (backend.New_answer be _) as [msg | c]; simpl;
        [|discriminate].
      intro H. inversion H. split; [reflexivity|].
      right. exists msg. split; [reflexivity | apply Hwrap].
  - run_New_goal.
    destruct (backend.New_answer be _) as [msg | c]; simpl;
      [|discriminate].
    intro H. inversion H. split; [reflexivity|].
    exists msg. split; [reflexivity | apply Hwrap].
  - run_New_goal.
    destruct (backend.New_answer be _) as [msg | c]; simpl;
      [|discriminate].
    intro H. inversion H. split; [reflexivity|].
    exists msg. split; [reflexivity | apply Hwrap].
Qed.

Lemma New_errors_witness :
  snd (fst (s3.New sample_backend sample_no_endpoint_options sample_logger
              [])) =
    Some (wrapError
            "failed to create s3 client: Endpoint:  does not follow ip address or domain name standards."
            (minioError
               "Endpoint:  does not follow ip address or domain name standards.")) /\
  fst (fst (s3.New sample_backend sample_no_endpoint_options sample_logger
              [])) = None.
Proof.
  split; [reflexivity|].
  exact (proj1 (proj1 (New_errors sample_backend) sample_no_endpoint_options
                  sample_logger [] _ eq_refl)).
Defined.

(** X20. What construction hands over.  [New] returns a client exactly
    when it returns a nil error.  The client keeps the options it was
    given and the library's session, logs under the given logger with
    the field (LogName, "S3") added, has a lifecycle context that is
    not cancelled and a wait group with nothing pending; in
    [src/unnamed/part_001] its upload options carry content type
    "application/octet-stream". *)
Theorem New_client (be : backend.Backend) :
  (forall options logger t,
      let '(r, e, _) := s3.New be options logger t in
      (r = None <-> e <> None) /\
      forall cl, r = Some cl ->
        s3.options cl = options /\
        s3.logger cl =
          zerolog.With_Str (s3.LogName options) "S3" logger /\
        context.cancelled (s3.ctx cl) = false /\
        s3.wg cl = sync.zero) /\
  (forall options logger t,
      let '(r, e, _) := s3_part_000.New be options logger t in
      (r = None <-> e <> None) /\
      forall cl, r = Some cl ->
        s3_part_000.options cl = options /\
        s3_part_000.logger cl =
          zerolog.With_Str (s3_part_000.LogName options) "S3" logger /\
        context.cancelled (s3_part_000.context cl) = false /\
        s3_part_000.wg cl = sync.zero) /\
  (forall options logger t,
      let '(r, e, _) := s3_part_001.New be options logger t in
      (r = None <-> e <> None) /\
      forall cl, r = Some cl ->
        s3_part_001.options cl = options /\
        s3_part_001.logger cl =
          zerolog.With_Str (s3_part_001.LogName options) "S3" logger /\
        context.cancelled (s3_part_001.context cl) = false /\
        s3_part_001.wg cl = sync.zero /\
        s3_part_001.putOpts cl =
          {| minio.ContentType := "application/octet-stream" |}).
Proof.
  repeat apply conj; intros options logger t.
  - unfold s3.New. destruct (s3.Disabled options).
    + simpl. split; [split; [discriminate | reflexivity] | discriminate].
    + run_New_goal.
      destruct (backend.New_answer be _) as [msg | c]; simpl.
      * split; [split; [discriminate | reflexivity] | discriminate].
      * split; [split; [discriminate | intro H; now contradiction H]|].
        intros cl H. inversion H. now repeat apply conj.
  - run_New_goal.
    destruct (backend.New_answer be _) as [msg | c]; simpl.
    + split; [split; [discriminate | reflexivity] | discriminate].
    + split; [split; [discriminate | intro H; now contradiction H]|].
      intros cl H. inversion H. now repeat apply conj.
  - run_New_goal.
    destruct (backend.New_answer be _) as [msg | c]; simpl.
    + split; [split; [discriminate | reflexivity] | discriminate].
    + split; [split; [discriminate | intro H; now contradiction H]|].
      intros cl H. inversion H. now repeat apply conj.
Qed.

Lemma New_client_witness :
  fst (fst (s3.New sample_backend sample_s3_options sample_logger [])) =
    Some sample_s3_client /\
  s3.options sample_s3_client = sample_s3_options /\
  context.cancelled (s3.ctx sample_s3_client) = false.
Proof.
  split; [reflexivity|].
  pose proof (proj1 (New_client sample_backend) sample_s3_options
                sample_logger []) as H.
  simpl in H. destruct H as [_ H].
  destruct (H sample_s3_client eq_refl) as [Hopt [_ [Hctx _]]].
  split; [exact Hopt | exact Hctx].
Defined.

(** ** After Close *)

Ltac closed H e :=
  unfold s3.Close, s3_part_000.Close, s3_part_001.Close, Debug, log in H;
  cbn [fst snd] in H;
  match type of H with
  | context [sync.Wait ?w] => destruct (sync.Wait w); [|discriminate]
  end;
  inversion H; subst; clear H.

(** X21. Close does not switch the client off.  No method looks at the
    lifecycle context that Close cancels: on the client Close leaves
    behind, every operation of [src/s3.go] is the very computation it
    was before, with the same log entry, the same request under the
    caller's context and the same result. *)
Theorem closed_s3_still_operates (be : backend.Backend)
    (e e' : s3.S3) (t t' : Trace) (result : error) :
  s3.Close e t = Some (result, e', t') ->
  (forall ctx prefix key expires,
      s3.PresignedGetObject be e' ctx prefix key expires =
        s3.PresignedGetObject be e ctx prefix key expires) /\
  (forall ctx prefix key,
      s3.GetObject be e' ctx prefix key = s3.GetObject be e ctx prefix key) /\
  (forall ctx prefix key reader objectSize contentType,
      s3.PutObject be e' ctx prefix key reader objectSize contentType =
        s3.PutObject be e ctx prefix key reader objectSize contentType) /\
  (forall ctx prefix key,
      s3.DeleteObject be e' ctx prefix key =
        s3.DeleteObject be e ctx prefix key) /\
  (forall ctx bucket,
      s3.MakeBucket be e' ctx bucket = s3.MakeBucket be e ctx bucket) /\
  (forall ctx prefix,
      s3.ListObjects be e' ctx prefix = s3.ListObjects be e ctx prefix) /\
  (forall ctx bucket,
      s3.RemoveBucket be e' ctx bucket = s3.RemoveBucket be e ctx bucket).
Proof.
  intro H. closed H e.
  repeat apply conj; reflexivity.
Qed.

Lemma closed_s3_still_operates_witness :
  s3.Close sample_s3_client [] =
    Some (None, s3.cancel sample_s3_client,
          [Log {| zerolog.fields := [("storage", "S3")] |}
             zerolog.DebugLevel (zerolog.Msg "closing s3 client")]) /\
  context.cancelled (s3.ctx (s3.cancel sample_s3_client)) = true /\
  s3.GetObject sample_backend (s3.cancel sample_s3_client)
    context.Background "logs" "a.txt" =
  s3.GetObject sample_backend sample_s3_client context.Background "logs"
    "a.txt".
Proof.
  assert (H : s3.Close sample_s3_client [] =
                Some (None, s3.cancel sample_s3_client,
                      [Log {| zerolog.fields := [("storage", "S3")] |}
                         zerolog.DebugLevel
                         (zerolog.Msg "closing s3 client")]))
    by reflexivity.
  split; [exact H|]. split; [reflexivity|].
  exact (proj1 (proj2 (@closed_s3_still_operates sample_backend
                         sample_s3_client _ [] _ None H))
           context.Background "logs" "a.txt").
Defined.

(** X22. The same in the two [Client] variants: after Close the
    operations of [src/unnamed/part_000] and of [src/unnamed/part_001]
    are the computations they were before. *)
Theorem closed_client_still_operates (be : backend.Backend) :
  (forall (e e' : s3_part_000.Client) t t' result,
      s3_part_000.Close e t = Some (result, e', t') ->
      (forall ctx prefix key expires,
          s3_part_000.PresignedGetObject be e' ctx prefix key expires =
            s3_part_000.PresignedGetObject be e ctx prefix key expires) /\
      (forall ctx prefix key,
          s3_part_000.GetObject be e' ctx prefix key =
            s3_part_000.GetObject be e ctx prefix key) /\
      (forall ctx prefix key reader objectSize contentType,
          s3_part_000.PutObject be e' ctx prefix key reader objectSize
            contentType =
            s3_part_000.PutObject be e ctx prefix key reader objectSize
              contentType) /\
      (forall ctx prefix key,
          s3_part_000.DeleteObject be e' ctx prefix key =
            s3_part_000.DeleteObject be e ctx prefix key) /\
      (forall ctx bucket,
          s3_part_000.MakeBucket be e' ctx bucket =
            s3_part_000.MakeBucket be e ctx bucket) /\
      (forall ctx prefix,
          s3_part_000.ListObjects be e' ctx prefix =
            s3_part_000.ListObjects be e ctx prefix) /\
      (forall ctx bucket,
          s3_part_000.RemoveBucket be e' ctx bucket =
            s3_part_000.RemoveBucket be e ctx bucket)) /\
  (forall (e e' : s3_part_001.Client) t t' result,
      s3_part_001.Close e t = Some (result, e', t') ->
      (forall ctx bucket key expires,
          s3_part_001.PresignedGetObject be e' ctx bucket key expires =
            s3_part_001.PresignedGetObject be e ctx bucket key expires) /\
      (forall ctx bucket key,
          s3_part_001.GetObject be e' ctx bucket key =
            s3_part_001.GetObject be e ctx bucket key) /\
      (forall ctx bucket key reader objectSize,
          s3_part_001.PutObject be e' ctx bucket key reader objectSize =
            s3_part_001.PutObject be e ctx bucket key reader objectSize) /\
      (forall ctx bucket key,
          s3_part_001.DeleteObject be e' ctx bucket key =
            s3_part_001.DeleteObject be e ctx bucket key) /\
      (forall ctx bucket,
          s3_part_001.MakeBucket be e' ctx bucket =
            s3_part_001.MakeBucket be e ctx bucket) /\
      (forall ctx bucket subprefix,
          s3_part_001.ListObjects be e' ctx bucket subprefix =
            s3_part_001.ListObjects be e ctx bucket subprefix) /\
      (forall ctx bucket,
          s3_part_001.RemoveBucket be e' ctx bucket =
            s3_part_001.RemoveBucket be e ctx bucket)).
Proof.
  split; intros e e' t t' result H; closed H e;
    repeat apply conj; reflexivity.
Qed.

Lemma closed_client_still_operates_witness :
  s3_part_001.Close sample_001_client [] =
    Some (None, s3_part_001.cancel sample_001_client,
          [Log {| zerolog.fields := [("storage", "S3")] |}
             zerolog.DebugLevel (zerolog.Msg "closing s3 client")]) /\
  s3_part_001.PutObject sample_backend
    (s3_part_001.cancel sample_001_client) context.Background "alpha" "k"
    "payload" 7%Z =
  s3_part_001.PutObject sample_backend sample_001_client context.Background
    "alpha" "k" "payload" 7%Z.
Proof.
  assert (H : s3_part_001.Close sample_001_client [] =
                Some (None, s3_part_001.cancel sample_001_client,
                      [Log {| zerolog.fields := [("storage", "S3")] |}
                         zerolog.DebugLevel
                         (zerolog.Msg "closing s3 client")]))
    by reflexivity.
  split; [exact H|].
  exact (proj1 (proj2 (proj2
                  (proj2 (closed_client_still_operates sample_backend)
                     sample_001_client _ [] _ None H)))
           context.Background "alpha" "k" "payload" 7%Z).
Defined.

Lemma context_cancel_idempotent (c : context.Context) :
  context.cancel (context.cancel c) = context.cancel c.
Proof. now destruct c. Qed.

(** X23. Close speaks to the logger only, and calling it again is
    harmless: a call that returns sends the library nothing, and on the
    client it leaves behind every further call returns nil and leaves
    that client as it is, in all three variants. *)
Theorem Close_silent_and_repeatable :
  (forall (e e' : s3.S3) t t' result,
      s3.Close e t = Some (result, e', t') ->
      requests t' = requests t /\
      forall u, exists u', s3.Close e' u = Some (None, e', u')) /\
  (forall (e e' : s3_part_000.Client) t t' result,
      s3_part_000.Close e t = Some (result, e', t') ->
      requests t' = requests t /\
      forall u, exists u', s3_part_000.Close e' u = Some (None, e', u')) /\
  (forall (e e' : s3_part_001.Client) t t' result,
      s3_part_001.Close e t = Some (result, e', t') ->
      requests t' = requests t /\
      forall u, exists u', s3_part_001.Close e' u = Some (None, e', u')).
Proof.
  repeat apply conj; intros e e' t t' result H.
  - unfold s3.Close, Debug, log in H. cbn [fst snd] in H.
    destruct (sync.Wait (s3.wg (s3.cancel e))) eqn:Hw; [|discriminate].
    inversion H; subst; clear H.
    split; [apply requests_log|].
    intro t2. eexists. unfold s3.Close, Debug, log. cbn [fst snd].
    change (s3.wg (s3.cancel (s3.cancel e))) with (s3.wg (s3.cancel e)).
    rewrite Hw. unfold s3.cancel. cbn [s3.logger s3.options s3.client
      s3.makeOpts s3.getOpts s3.removeOpts s3.ctx s3.wg].
    rewrite context_cancel_idempotent. reflexivity.
  - unfold s3_part_000.Close, Debug, log in H. cbn [fst snd] in H.
    destruct (sync.Wait (s3_part_000.wg (s3_part_000.cancel e))) eqn:Hw;
      [|discriminate].
    inversion H; subst; clear H.
    split; [apply requests_log|].
    intro t2. eexists. unfold s3_part_000.Close, Debug, log. cbn [fst snd].
    change (s3_part_000.wg (s3_part_000.cancel (s3_part_000.cancel e)))
      with (s3_part_000.wg (s3_part_000.cancel e)).
    rewrite Hw. unfold s3_part_000.cancel.
    cbn [s3_part_000.logger s3_part_000.options s3_part_000.client
         s3_part_000.makeOpts s3_part_000.getOpts s3_part_000.removeOpts
         s3_part_000.context s3_part_000.wg].
    rewrite context_cancel_idempotent. reflexivity.
  - unfold s3_part_001.Close, Debug, log in H. cbn [fst snd] in H.
    destruct (sync.Wait (s3_part_001.wg (s3_part_001.cancel e))) eqn:Hw;
      [|discriminate].
    inversion H; subst; clear H.
    split; [apply requests_log|].
    intro t2. eexists. unfold s3_part_001.Close, Debug, log. cbn [fst snd].
    change (s3_part_001.wg (s3_part_001.cancel (s3_part_001.cancel e)))
      with (s3_part_001.wg (s3_part_001.cancel e)).
    rewrite Hw. unfold s3_part_001.cancel.
    cbn [s3_part_001.logger s3_part_001.options s3_part_001.client
         s3_part_001.makeOpts s3_part_001.getOpts s3_part_001.putOpts
         s3_part_001.removeOpts s3_part_001.context s3_part_001.wg].
    rewrite context_cancel_idempotent. reflexivity.
Qed.

Lemma Close_silent_and_repeatable_witness :
  s3.Close sample_s3_client [] =
    Some (None, s3.cancel sample_s3_client,
          [Log {| zerolog.fields := [("storage", "S3")] |}
             zerolog.DebugLevel (zerolog.Msg "closing s3 client")]) /\
  exists u',
    s3.Close (s3.cancel sample_s3_client) [] =
      Some (None, s3.cancel sample_s3_client, u').
Proof.
  assert (H : s3.Close sample_s3_client [] =
                Some (None, s3.cancel sample_s3_client,
                      [Log {| zerolog.fields := [("storage", "S3")] |}
                         zerolog.DebugLevel
                         (zerolog.Msg "closing s3 client")]))
    by reflexivity.
  split; [exact H|].
  exact (proj2 (proj1 Close_silent_and_repeatable sample_s3_client _ [] _
                  None H) []).
Defined.

(** ** One namespace, and two *)

Lemma append_inj_l (p a b : string) : p ++ a = p ++ b -> a = b.
Proof.
  induction p as [|x p IH]; simpl; [auto|].
  intro H. inversion H. auto.
Qed.

Lemma issues_unique {A : Type} (m : M A) (r r' : minio.Request) :
  issues m r -> issues m r' -> r = r'.
Proof.
  intros H H'. specialize (H []). specialize (H' []).
  rewrite H in H'. simpl in H'. now inversion H'.
Qed.

(** X24. Within one namespace nothing collides.  Under one prefix the
    bucket-fixed variants resolve different keys to different object
    names, whatever the prefix holds; and two GetObject calls on one
    client of [src/unnamed/part_001] that send the same request were
    given the same bucket and the same key. *)
Theorem no_collision_within_namespace (be : backend.Backend) :
  (forall prefix key key',
      s3.prefixedKey prefix key = s3.prefixedKey prefix key' ->
      key = key') /\
  (forall prefix key key',
      s3_part_000.prefixedKey prefix key =
        s3_part_000.prefixedKey prefix key' ->
      key = key') /\
  (forall e ctx bucket key bucket' key' r,
      issues (s3_part_001.GetObject be e ctx bucket key) r ->
      issues (s3_part_001.GetObject be e ctx bucket' key') r ->
      bucket = bucket' /\ key = key').
Proof.
  repeat apply conj.
  - intros prefix key key'. rewrite !s3_prefixedKey_eq. intro H.
    apply append_inj_l in H. now inversion H.
  - intros prefix key key'. rewrite !part_000_prefixedKey_eq. intro H.
    apply append_inj_l in H. now inversion H.
  - intros e ctx bucket key bucket' key' r H H'.
    assert (Hr : issues (s3_part_001.GetObject be e ctx bucket key)
                   (minio.GetObject_ (s3_part_001.client e) ctx
                      (s3_part_001.Prefix (s3_part_001.options e) ++ bucket)
                      key (s3_part_001.getOpts e))) by settle_op.
    assert (Hr' : issues (s3_part_001.GetObject be e ctx bucket' key')
                    (minio.GetObject_ (s3_part_001.client e) ctx
                       (s3_part_001.Prefix (s3_part_001.options e)
                          ++ bucket')
                       key' (s3_part_001.getOpts e))) by settle_op.
    pose proof (issues_unique H Hr) as E.
    pose proof (issues_unique H' Hr') as E'.
    rewrite E in E'. inversion E' as [[Hb Hk]].
    apply append_inj_l in Hb. now split.
Qed.

Lemma no_collision_within_namespace_witness :
  s3.prefixedKey "a/b" "c" = s3.prefixedKey "a/b" "c" /\ "c" = "c".
Proof.
  split; [reflexivity|].
  exact (proj1 (no_collision_within_namespace sample_backend) "a/b" "c" "c"
           eq_refl).
Defined.

(** X25. Across clients of [src/unnamed/part_001] the prefix is no
    boundary: as prefix and bucket are joined without a separator, a
    client whose prefix is p + q reaches with bucket b the very bucket
    that a client with prefix p on the same session reaches with bucket
    q + b; their GetObject calls send the same request. *)
Theorem prefix_is_no_boundary (be : backend.Backend)
    (e1 e2 : s3_part_001.Client) (q : string) :
  s3_part_001.client e1 = s3_part_001.client e2 ->
  s3_part_001.Prefix (s3_part_001.options e1) =
    s3_part_001.Prefix (s3_part_001.options e2) ++ q ->
  forall ctx bucket key r,
    issues (s3_part_001.GetObject be e1 ctx bucket key) r <->
    issues (s3_part_001.GetObject be e2 ctx (q ++ bucket) key) r.
Proof.
  intros Hc Hp ctx bucket key r.
  assert (H1 : issues (s3_part_001.GetObject be e1 ctx bucket key)
                 (minio.GetObject_ (s3_part_001.client e1) ctx
                    (s3_part_001.Prefix (s3_part_001.options e1) ++ bucket)
                    key (s3_part_001.getOpts e1))) by settle_op.
  assert (H2 : issues (s3_part_001.GetObject be e2 ctx (q ++ bucket) key)
                 (minio.GetObject_ (s3_part_001.client e2) ctx
                    (s3_part_001.Prefix (s3_part_001.options e2)
                       ++ q ++ bucket)
                    key (s3_part_001.getOpts e2))) by settle_op.
  rewrite Hp, Hc, append_assoc3 in H1.
  replace (s3_part_001.getOpts e1) with (s3_part_001.getOpts e2) in H1
    by (now destruct (s3_part_001.getOpts e1),
                     (s3_part_001.getOpts e2)).
  split; intro H.
  - now rewrite (issues_unique H H1).
  - now rewrite (issues_unique H H2).
Qed.

Lemma prefix_is_no_boundary_witness :
  s3_part_001.client sample_001_client_longer =
    s3_part_001.client sample_001_client /\
  s3_part_001.Prefix (s3_part_001.options sample_001_client_longer) =
    s3_part_001.Prefix (s3_part_001.options sample_001_client) ++ "a" /\
  issues
    (s3_part_001.GetObject sample_backend sample_001_client
       context.Background "alpha" "k")
    (minio.GetObject_ {| minio.session := 1 |} context.Background
       "tenant-alpha" "k" minio.GetObjectOptions_zero).
Proof.
  split; [reflexivity|]. split; [reflexivity|].
  apply (proj1 (@prefix_is_no_boundary sample_backend
                  sample_001_client_longer sample_001_client "a"
                  eq_refl eq_refl context.Background "lpha" "k" _)).
  unfold s3_part_001.GetObject, backend.GetObject. cbv zeta.
  apply issues_log_call.
Defined.

(** ** What reaches the logger *)

Lemma logs_app (t u : Trace) : logs (t ++ u)%list = (logs t ++ logs u)%list.
Proof.
  induction t as [|[l lv m | r] t IH]; simpl; [reflexivity | | exact IH].
  now rewrite IH.
Qed.

Ltac logs_of_New :=
  unfold s3.New, s3_part_000.New, s3_part_001.New, backend.New,
    backend.call, bind, ret, Debug, Warn, log;
  cbn [fst snd];
  repeat match goal with
    | |- context [match backend.New_answer ?be ?t with _ => _ end] =>
        destruct (backend.New_answer be t)
    end;
  cbn [fst snd];
  rewrite !logs_app; reflexivity.

(** X26. The credentials are not logged.  What [New] writes to the
    logger depends on the log name, the endpoint, the bucket (or the
    prefix) and, in [src/s3.go], the disabled flag, and on nothing else
    of the options: two constructions that differ only in access key,
    secret key, region or secure flag leave the same log entries,
    whatever the library answers. *)
Theorem New_logs_no_credentials (be : backend.Backend) :
  (forall options options' logger t,
      s3.LogName options = s3.LogName options' ->
      s3.Disabled options = s3.Disabled options' ->
      s3.Endpoint options = s3.Endpoint options' ->
      s3.Bucket options = s3.Bucket options' ->
      logs (snd (s3.New be options logger t)) =
        logs (snd (s3.New be options' logger t))) /\
  (forall options options' logger t,
      s3_part_000.LogName options = s3_part_000.LogName options' ->
      s3_part_000.Endpoint options = s3_part_000.Endpoint options' ->
      s3_part_000.Bucket options = s3_part_000.Bucket options' ->
      logs (snd (s3_part_000.New be options logger t)) =
        logs (snd (s3_part_000.New be options' logger t))) /\
  (forall options options' logger t,
      s3_part_001.LogName options = s3_part_001.LogName options' ->
      s3_part_001.Endpoint options = s3_part_001.Endpoint options' ->
      s3_part_001.Prefix options = s3_part_001.Prefix options' ->
      logs (snd (s3_part_001.New be options logger t)) =
        logs (snd (s3_part_001.New be options' logger t))).
Proof.
  repeat apply conj.
  - intros [n d e s r b a k] [n' d' e' s' r' b' a' k'] logger t.
    cbn [s3.LogName s3.Disabled s3.Endpoint s3.Bucket].
    intros <- <- <- <-.
    unfold s3.New. cbn [s3.LogName s3.Disabled s3.Endpoint s3.Bucket
      s3.AccessKey s3.SecretKey s3.Secure s3.Region].
    destruct d; logs_of_New.
  - intros [n e s r b a k] [n' e' s' r' b' a' k'] logger t.
    cbn [s3_part_000.LogName s3_part_000.Endpoint s3_part_000.Bucket].
    intros <- <- <-.
    logs_of_New.
  - intros [n e s r b a k] [n' e' s' r' b' a' k'] logger t.
    cbn [s3_part_001.LogName s3_part_001.Endpoint s3_part_001.Prefix].
    intros <- <- <-.
    logs_of_New.
Qed.

Lemma New_logs_no_credentials_witness :
  s3.LogName sample_s3_options = s3.LogName sample_s3_options_other_keys /\
  s3.SecretKey sample_s3_options <>
    s3.SecretKey sample_s3_options_other_keys /\
  logs (snd (s3.New sample_backend sample_s3_options sample_logger [])) =
    logs (snd (s3.New sample_backend sample_s3_options_other_keys
                 sample_logger [])).
Proof.
  split; [reflexivity|]. split; [discriminate|].
  exact (proj1 (New_logs_no_credentials sample_backend) sample_s3_options
           sample_s3_options_other_keys sample_logger [] eq_refl eq_refl
           eq_refl eq_refl).
Defined.

Lemma prefixedKey_reassociates_witness :
  s3.prefixedKey ("a" ++ "/" ++ "b") "c" = s3.prefixedKey "a" ("b" ++ "/" ++ "c") /\
  (issues
     (s3.GetObject sample_backend sample_s3_client context.Background
        ("a" ++ "/" ++ "b") "c")
     (minio.GetObject_ {| minio.session := 1 |} context.Background
        "artifacts" "a/b/c" minio.GetObjectOptions_zero) ->
   issues
     (s3.GetObject sample_backend sample_s3_client context.Background "a"
        ("b" ++ "/" ++ "c"))
     (minio.GetObject_ {| minio.session := 1 |} context.Background
        "artifacts" "a/b/c" minio.GetObjectOptions_zero)).
Proof.
  split.
  - exact (proj1 (prefixedKey_reassociates sample_backend "a" "b" "c")).
  - exact (proj1 (proj1 (proj2 (proj2 (prefixedKey_reassociates
                                         sample_backend "a" "b" "c")))
                    sample_s3_client context.Background _)).
Defined.

Lemma GlobalRequiredFlags_first_undefined_witness :
  snd (config_yaml.GlobalRequiredFlags sample_yaml_config
         {| cobra.Flags := sample_endpoint_only_flags |}) =
    Some "no such flag -s3-bucket" /\
  snd (config_yaml.GlobalRequiredFlags sample_yaml_config
         {| cobra.Flags := [] |}) =
    Some "no such flag -s3-endpoint" /\
  (snd (config_yaml.GlobalRequiredFlags sample_yaml_config
          {| cobra.Flags := sample_yaml_flags |}) = None ->
   defined sample_yaml_flags "s3-secret-key" = true).
Proof.
  repeat apply conj.
  - exact (proj1 (GlobalRequiredFlags_first_undefined sample_yaml_config
                    {| cobra.Flags := sample_endpoint_only_flags |})).
  - exact (proj1 (GlobalRequiredFlags_first_undefined sample_yaml_config
                    {| cobra.Flags := [] |})).
  - intro H.
    apply (proj1 (proj2 (GlobalRequiredFlags_first_undefined
                           sample_yaml_config
                           {| cobra.Flags := sample_yaml_flags |})) H).
    simpl. tauto.
Defined.
